(** * Fraud detection backend: a shallow embedding and its properties

    The development follows the layout of the repository:
    - [Py]: the Python values, exceptions and string formatting the code uses;
    - [Pandas]: the few data-frame operations of [model.py];
    - [Sklearn]: the contracts of [LabelEncoder], [StandardScaler] and
      [IsolationForest];
    - [Model]: [backend/model.py], class [FraudDetectionModel];
    - [Generator]: [backend/data_generator.py], class
      [TransactionDataGenerator];
    - [Api]: the request type of [backend/main.py];
    - [Spec]: the explanation as the specification words it;
    - [Reference]: a runtime to evaluate the code on concrete inputs.
    The theorems follow, in [Rounding], [Corpus], [Prediction] and
    [Explanation].

    Numbers.  A Python [float] is modelled by the rational it denotes, and
    [nan] by a separate value; rounding to a number of decimals is the exact
    round-half-even.  A Python [int] (and numpy's integers) is a [Z].

    Left out: the persistence of the model ([save_model], [load_model]),
    [get_sample_transaction], the HTTP routes, and what the code prints. *)

From Stdlib Require Import ZArith QArith Qround Qminmax Qabs DecimalString.
From Stdlib Require Import Ascii String Permutation Lia Lqa.
From stdpp Require Import base option list strings gmap fin_maps.

Local Open Scope Z_scope.

(* ===================================================================== *)
(** * Python values                                                       *)
(* ===================================================================== *)

Module Py.

(** The exceptions the modelled code and its libraries raise.  The argument
    is the message (for [KeyError], the missing key). *)
Inductive exn : Type :=
| ValueError (msg : string)
| TypeError (msg : string)
| KeyError (key : string)
| AttributeError (msg : string)
| IndexError (msg : string)
| NotFittedError (msg : string)
| OverflowError (msg : string).

(** The outcome of a call: a value, or a raised exception. *)
Inductive result (A : Type) : Type :=
| Ok (a : A)
| Raise (e : exn).
Arguments Ok {A} a.
Arguments Raise {A} e.

Definition rbind {A B} (r : result A) (k : A -> result B) : result B :=
  match r with
  | Ok a => k a
  | Raise e => Raise e
  end.

Notation "'let?' x ':=' r 'in' k" := (rbind r (fun x => k))
  (at level 10, x pattern, r at level 100, k at level 200).

Fixpoint rmap {A B} (f : A -> result B) (l : list A) : result (list B) :=
  match l with
  | [] => Ok []
  | a :: l' =>
      let? b := f a in
      let? bs := rmap f l' in
      Ok (b :: bs)
  end.

(** A value stored in a dict or in a cell of a data frame. *)
Inductive pyval : Type :=
| PInt (z : Z)
| PFloat (x : Q)
| PNaN
| PStr (s : string).

(** A [float] of a numeric array: [None] is [nan]. *)
Abbreviation float := (option Q).

(** [d.get(key, default)] *)
Definition dict_get (d : gmap string pyval) (key : string) (dflt : pyval) : pyval :=
  default dflt (d !! key).

(** ** Comparisons against a numeric literal

    [v > c] and [v < c]: numeric for [int] and [float], [False] for [nan],
    [TypeError] for a [str]. *)
Definition Qltb (a b : Q) : bool := negb (Qle_bool b a).

Definition py_gt (v : pyval) (c : Q) : result bool :=
  match v with
  | PInt z => Ok (Qltb c (inject_Z z))
  | PFloat x => Ok (Qltb c x)
  | PNaN => Ok false
  | PStr _ => Raise (TypeError "'>' not supported between a str and a number")
  end.

Definition py_lt (v : pyval) (c : Q) : result bool :=
  match v with
  | PInt z => Ok (Qltb (inject_Z z) c)
  | PFloat x => Ok (Qltb x c)
  | PNaN => Ok false
  | PStr _ => Raise (TypeError "'<' not supported between a str and a number")
  end.

(** ** Rounding *)

(** Round to the nearest integer, ties to even ([rint]). *)
Definition Qrint (q : Q) : Z :=
  let f := Qfloor q in
  match Qcompare (q - inject_Z f) (1 # 2) with
  | Lt => f
  | Gt => f + 1
  | Eq => if Z.even f then f else f + 1
  end.

(** [round(x, ndigits)] on a float. *)
Definition round_ndigits (x : Q) (ndigits : nat) : Q :=
  inject_Z (Qrint (x * inject_Z (10 ^ Z.of_nat ndigits)))
  / inject_Z (10 ^ Z.of_nat ndigits).

(** [int(x)] on a float: truncation toward zero. *)
Definition int_of_float (x : Q) : Z := Z.quot (Qnum x) (Z.pos (Qden x)).

(** [np.clip(x, lo, hi)] *)
Definition clip (x lo hi : Q) : Q := Qmin (Qmax x lo) hi.

(** ** Formatting *)

(** [str(n)] for an [int]. *)
Definition str_int (z : Z) : string := NilZero.string_of_int (Z.to_int z).

Fixpoint zeros (n : nat) : string :=
  match n with
  | O => ""
  | S n' => String "0"%char (zeros n')
  end.

(** Left padding with zeros up to [width] characters. *)
Definition zfill (width : nat) (s : string) : string :=
  zeros (width - String.length s) +:+ s.

(** The [,] option of the format mini-language: a comma between groups of
    three digits, counted from the right. [n] is the number of characters of
    [s] still to come, itself included. *)
Fixpoint group_thousands_aux (s : string) (n : nat) : string :=
  match s, n with
  | String c s', S n' =>
      String c (if andb (Nat.eqb (n' mod 3) 0) (negb (Nat.eqb n' 0))
                then String ","%char (group_thousands_aux s' n')
                else group_thousands_aux s' n')
  | _, _ => ""
  end.

Definition group_thousands (s : string) : string :=
  group_thousands_aux s (String.length s).

(** [f"{x:.<digits>f}"], with the thousands separator when [comma]. *)
Definition format_fixed (comma : bool) (digits : nat) (x : Q) : string :=
  let scale := 10 ^ Z.of_nat digits in
  let n := Qrint (Qabs x * inject_Z scale) in
  let ipart := str_int (n / scale) in
  (if Qltb x 0 then "-" else "")
  +:+ (if comma then group_thousands ipart else ipart)
  +:+ (match digits with
       | O => ""
       | _ => "." +:+ zfill digits (str_int (n mod scale))
       end).

(** What the floating-point runtime supplies and exact arithmetic does not:
    the square root, and the shortest decimal that [str] prints for a
    float. *)
Class FloatRuntime : Type := {
  float_sqrt : Q -> Q;
  float_repr : Q -> string
}.

(** [str(v)], as an f-string field without a format. *)
Definition py_str `{FloatRuntime} (v : pyval) : string :=
  match v with
  | PInt z => str_int z
  | PFloat x => float_repr x
  | PNaN => "nan"
  | PStr s => s
  end.

(** The least integer that [float(n)] refuses: halfway between the largest
    double and [2 ** 1024], where rounding to the nearest double
    overflows. *)
Definition float_overflow : Z := 2 ^ 1024 - 2 ^ 970.

(** [float(n)] raises for the integer [n]. *)
Definition int_overflows (z : Z) : bool := float_overflow <=? Z.abs z.

(** The double nearest to an integer: its 53 leading bits, rounded on the
    bits dropped, a tie going to the even mantissa. *)
Definition nearest_double (z : Z) : Z :=
  let a := Z.abs z in
  let e := Z.log2 a - 52 in
  if e <=? 0 then z
  else
    let q := a / 2 ^ e in
    let r := a mod 2 ^ e in
    let half := 2 ^ (e - 1) in
    let m := if (half <? r) || ((r =? half) && Z.odd q) then q + 1 else q in
    Z.sgn z * (m * 2 ^ e).

(** [float(n)] *)
Definition float_of_int (z : Z) : result Q :=
  if int_overflows z
  then Raise (OverflowError "int too large to convert to float")
  else Ok (inject_Z (nearest_double z)).

(** The format [f] of a value: an [int] is converted to a float first,
    which raises when it is too large. *)
Definition format_float (comma : bool) (digits : nat) (v : pyval) : result string :=
  match v with
  | PInt z => let? x := float_of_int z in Ok (format_fixed comma digits x)
  | PFloat x => Ok (format_fixed comma digits x)
  | PNaN => Ok "nan"
  | PStr _ => Raise (ValueError "Unknown format code 'f' for object of type 'str'")
  end.

End Py.

(* ===================================================================== *)
(** * The data-frame operations of [model.py]                             *)
(* ===================================================================== *)

Module Pandas.
Import Py.

(** A data frame whose columns are addressed by name: the code never relies
    on the order of the columns of the frames it receives. *)
Abbreviation DataFrame := (gmap string (list pyval)).

(** The frame [df[cols]]: the listed columns, in the order of the list. *)
Abbreviation Selection := (list (string * list pyval)).

(** A numeric array, stored by columns. *)
Abbreviation ndarray := (list (list float)).

(** [df[col]] *)
Definition getitem (df : DataFrame) (col : string) : result (list pyval) :=
  match df !! col with
  | Some c => Ok c
  | None => Raise (KeyError col)
  end.

(** [df[col] = vals] *)
Definition setitem (df : DataFrame) (col : string) (vals : list pyval) : DataFrame :=
  <[col := vals]> df.

(** [col in df.columns] *)
Definition has_column (df : DataFrame) (col : string) : bool :=
  bool_decide (is_Some (df !! col)).

(** [df[cols]] *)
Definition select (df : DataFrame) (cols : list string) : result Selection :=
  rmap (fun c => let? v := getitem df c in Ok (c, v)) cols.

Definition columns (X : Selection) : list string := map fst X.

(** [pd.DataFrame([d])]: a frame of one row. *)
Definition of_dict (d : gmap string pyval) : DataFrame := (fun v => [v]) <$> d.

(** [pd.DataFrame(records)]: one column per key, [nan] where a record lacks
    the key. *)
Definition of_records (records : list (gmap string pyval)) : DataFrame :=
  map_imap (fun k _ => Some (map (fun r => dict_get r k PNaN) records))
           (⋃ records).

(** The value of a cell as a float. *)
Definition to_float (v : pyval) : result float :=
  match v with
  | PInt z => Ok (Some (inject_Z z))
  | PFloat x => Ok (Some x)
  | PNaN => Ok None
  | PStr _ => Raise (TypeError "could not convert string to float")
  end.

Definition Qsum (xs : list Q) : Q := foldr Qplus 0%Q xs.

(** The values of a column that are not [nan]. *)
Definition dropna (xs : list float) : list Q := omap id xs.

(** The mean that skips [nan]; [nan] when nothing is left. *)
Definition nanmean (xs : list float) : float :=
  match dropna xs with
  | [] => None
  | present => Some (Qsum present / inject_Z (Z.of_nat (length present)))%Q
  end.

(** [X.mean()]: the mean of each column, [nan] skipped; a column of
    strings has no mean. *)
Definition mean (X : Selection) : result (list (string * float)) :=
  rmap (fun '(c, col) => let? xs := rmap to_float col in Ok (c, nanmean xs)) X.

(** The entry of a series indexed by column name. *)
Fixpoint series_get (s : list (string * float)) (c : string) : float :=
  match s with
  | [] => None
  | (c', m) :: s' => if String.eqb c c' then m else series_get s' c
  end.

Definition fill_cell (m : float) (v : pyval) : pyval :=
  match v, m with
  | PNaN, Some x => PFloat x
  | _, _ => v
  end.

(** [X.fillna(s)]: a [nan] cell takes the entry of [s] for its column, and
    stays [nan] when that entry is [nan]. *)
Definition fillna (X : Selection) (s : list (string * float)) : Selection :=
  map (fun '(c, col) => (c, map (fill_cell (series_get s c)) col)) X.

(** The numeric array of a frame. *)
Definition to_numpy (X : Selection) : result ndarray :=
  rmap (fun '(_, col) => rmap to_float col) X.

Definition n_samples (a : ndarray) : nat :=
  match a with
  | [] => O
  | col :: _ => length col
  end.

(** The rows of an array. *)
Definition rows (a : ndarray) : list (list float) :=
  map (fun i => map (fun col => nth i col None) a) (seq 0 (n_samples a)).

End Pandas.

(* ===================================================================== *)
(** * The estimators of scikit-learn                                      *)
(* ===================================================================== *)

Module Sklearn.
Import Py Pandas.

(** ** [LabelEncoder] *)

Record LabelEncoder : Type := { classes_ : option (list string) }.

Definition LabelEncoder_new : LabelEncoder := {| classes_ := None |}.

Definition as_label (v : pyval) : result string :=
  match v with
  | PStr s => Ok s
  | _ => Raise (TypeError "Encoders require their input argument must be uniformly strings or numbers")
  end.

(** Insertion into a sorted list without duplicates. *)
Fixpoint insert_sorted (s : string) (l : list string) : list string :=
  match l with
  | [] => [s]
  | x :: l' =>
      if String.eqb s x then l
      else if String.ltb s x then s :: l
      else x :: insert_sorted s l'
  end.

(** [np.unique]: the distinct labels, sorted. *)
Definition unique (labels : list string) : list string :=
  foldr insert_sorted [] labels.

Fixpoint index_of (s : string) (l : list string) : option nat :=
  match l with
  | [] => None
  | x :: l' => if String.eqb s x then Some O else S <$> index_of s l'
  end.

Definition encode (classes : list string) (s : string) : result pyval :=
  match index_of s classes with
  | Some i => Ok (PInt (Z.of_nat i))
  | None => Raise (ValueError "y contains previously unseen labels")
  end.

(** [enc.fit_transform(y)]: the fitted encoder and the codes. *)
Definition LabelEncoder_fit_transform (y : list pyval)
  : result (LabelEncoder * list pyval) :=
  let? labels := rmap as_label y in
  let classes := unique labels in
  let? codes := rmap (encode classes) labels in
  Ok ({| classes_ := Some classes |}, codes).

(** [enc.transform(y)] *)
Definition LabelEncoder_transform (enc : LabelEncoder) (y : list pyval)
  : result (list pyval) :=
  match classes_ enc with
  | None => Raise (NotFittedError "This LabelEncoder instance is not fitted yet")
  | Some classes =>
      let? labels := rmap as_label y in
      rmap (encode classes) labels
  end.

(** ** [StandardScaler] *)

Record ScalerStats : Type := { mean_ : list float; scale_ : list float }.

(** An instance, fitted or not. *)
Record StandardScaler : Type := { scaler_stats_ : option ScalerStats }.

Definition StandardScaler_new : StandardScaler := {| scaler_stats_ := None |}.

(** The variance that skips [nan]. *)
Definition nanvar (xs : list float) : float :=
  match nanmean xs with
  | None => None
  | Some m => nanmean (map (option_map (fun x => (x - m) * (x - m))%Q) xs)
  end.

(** The scale of a feature: its standard deviation, and 1 for a feature of
    zero variance. *)
Definition scale_of_var `{FloatRuntime} (v : float) : float :=
  match v with
  | None => None
  | Some v => Some (if Qeq_bool v 0 then 1%Q else float_sqrt v)
  end.

Definition standardize (m s x : float) : float :=
  match x, m, s with
  | Some x, Some m, Some s => Some ((x - m) / s)%Q
  | _, _, _ => None
  end.

Fixpoint standardize_columns (ms ss : list float) (a : ndarray) : ndarray :=
  match a, ms, ss with
  | col :: a', m :: ms', s :: ss' =>
      map (standardize m s) col :: standardize_columns ms' ss' a'
  | _, _, _ => []
  end.

(** [scaler.transform(X)] *)
Definition StandardScaler_transform (sc : StandardScaler) (X : Selection)
  : result ndarray :=
  match scaler_stats_ sc with
  | None => Raise (NotFittedError "This StandardScaler instance is not fitted yet")
  | Some st =>
      let? a := to_numpy X in
      if negb (Nat.eqb (length a) (length (mean_ st)))
      then Raise (ValueError "X has a different number of features than StandardScaler is expecting")
      else Ok (standardize_columns (mean_ st) (scale_ st) a)
  end.

(** [scaler.fit_transform(X)]: the fitted scaler and the scaled array. *)
Definition StandardScaler_fit_transform `{FloatRuntime} (X : Selection)
  : result (StandardScaler * ndarray) :=
  let? a := to_numpy X in
  if Nat.eqb (n_samples a) 0
  then Raise (ValueError "Found array with 0 sample(s) while a minimum of 1 is required by StandardScaler")
  else
    let st := {| mean_ := map nanmean a;
                 scale_ := map (fun col => scale_of_var (nanvar col)) a |} in
    Ok ({| scaler_stats_ := Some st |},
        standardize_columns (mean_ st) (scale_ st) a).

(** ** [IsolationForest] *)

Record IsolationForestParams : Type := {
  n_estimators : Z;
  max_samples : string;
  contamination : Q;
  random_state : Z;
  n_jobs : Z
}.

(** The ensemble itself is the library's: the trees a fit builds from the
    rows of an array, and the decision-function value of a row. *)
Class ForestRuntime : Type := {
  forest : Type;
  forest_fit : IsolationForestParams -> list (list float) -> result forest;
  forest_decision : forest -> list float -> result Q
}.

Section IsolationForest.
Context `{ForestRuntime}.

(** An instance: its parameters, and the ensemble once fitted. *)
Record IsolationForest : Type := {
  params : IsolationForestParams;
  estimators_ : option forest
}.

Definition IsolationForest_new (p : IsolationForestParams) : IsolationForest :=
  {| params := p; estimators_ := None |}.

(** [m.fit(X)] *)
Definition IsolationForest_fit (m : IsolationForest) (X : ndarray)
  : result IsolationForest :=
  let? f := forest_fit (params m) (rows X) in
  Ok {| params := params m; estimators_ := Some f |}.

(** [m.decision_function(X)] *)
Definition IsolationForest_decision_function (m : IsolationForest) (X : ndarray)
  : result (list Q) :=
  match estimators_ m with
  | None => Raise (NotFittedError "This IsolationForest instance is not fitted yet")
  | Some f => rmap (forest_decision f) (rows X)
  end.

(** [m.predict(X)]: -1 where the decision function is negative, 1
    elsewhere. *)
Definition IsolationForest_predict (m : IsolationForest) (X : ndarray)
  : result (list Z) :=
  let? d := IsolationForest_decision_function m X in
  Ok (map (fun x => if Qltb x 0 then -1 else 1) d).

End IsolationForest.

End Sklearn.

(* ===================================================================== *)
(** * [backend/model.py]                                                  *)
(* ===================================================================== *)

Module Model.
Import Py Pandas Sklearn.

Section FraudDetectionModel.
Context `{FloatRuntime} `{ForestRuntime}.

(** The attributes of a [FraudDetectionModel]; [None] is Python's. *)
Record FraudDetectionModel : Type := {
  model : option IsolationForest;
  scaler : option StandardScaler;
  label_encoder : option LabelEncoder;
  feature_columns : option (list string);
  is_trained : bool
}.

(** [FraudDetectionModel()] *)
Definition __init__ : FraudDetectionModel :=
  {| model := None; scaler := None; label_encoder := None;
     feature_columns := None; is_trained := false |}.

(** ** Methods: state passing with exceptions

    A method receives [self] and returns its outcome with [self] as the call
    left it; what was assigned before an exception stays assigned. *)
Definition M (A : Type) : Type :=
  FraudDetectionModel -> result A * FraudDetectionModel.

Definition ret {A} (a : A) : M A := fun self => (Ok a, self).

Definition lift {A} (r : result A) : M A := fun self => (r, self).

Definition raise {A} (e : exn) : M A := lift (Raise e).

Definition bind {A B} (m : M A) (k : A -> M B) : M B :=
  fun self =>
    match m self with
    | (Ok a, self') => k a self'
    | (Raise e, self') => (Raise e, self')
    end.

Definition get {A} (attr : FraudDetectionModel -> A) : M A :=
  fun self => (Ok (attr self), self).

Definition set_model (v : option IsolationForest) : M unit :=
  fun self =>
    (Ok tt, {| model := v; scaler := scaler self;
               label_encoder := label_encoder self;
               feature_columns := feature_columns self;
               is_trained := is_trained self |}).

Definition set_scaler (v : option StandardScaler) : M unit :=
  fun self =>
    (Ok tt, {| model := model self; scaler := v;
               label_encoder := label_encoder self;
               feature_columns := feature_columns self;
               is_trained := is_trained self |}).

Definition set_label_encoder (v : option LabelEncoder) : M unit :=
  fun self =>
    (Ok tt, {| model := model self; scaler := scaler self;
               label_encoder := v;
               feature_columns := feature_columns self;
               is_trained := is_trained self |}).

Definition set_feature_columns (v : option (list string)) : M unit :=
  fun self =>
    (Ok tt, {| model := model self; scaler := scaler self;
               label_encoder := label_encoder self;
               feature_columns := v;
               is_trained := is_trained self |}).

Definition set_is_trained (v : bool) : M unit :=
  fun self =>
    (Ok tt, {| model := model self; scaler := scaler self;
               label_encoder := label_encoder self;
               feature_columns := feature_columns self;
               is_trained := v |}).

Notation "'let*' x ':=' m 'in' k" := (bind m (fun x => k))
  (at level 10, x pattern, m at level 100, k at level 200).

(** ** [preprocess_features] *)

(** The local list [feature_columns] of [preprocess_features]. *)
Definition model_features : list string :=
  ["amount"; "transaction_type_encoded"; "account_age_days";
   "location_risk_score"; "device_risk_score"; "transaction_hour";
   "past_transactions_24h"].

(** Its loop over the feature columns: the first one absent raises. *)
Fixpoint ensure_columns (df : DataFrame) (cols : list string) : result unit :=
  match cols with
  | [] => Ok tt
  | col :: cols' =>
      if negb (has_column df col)
      then Raise (ValueError ("Feature column '" +:+ col +:+ "' not found in data"))
      else ensure_columns df cols'
  end.

Definition preprocess_features (df : DataFrame) : M (Selection * list string) :=
  let df_processed := df in
  let* enc := get label_encoder in
  let* codes :=
    match enc with
    | None =>
        let* _ := set_label_encoder (Some LabelEncoder_new) in
        let* y := lift (getitem df_processed "transaction_type") in
        let* (fitted, codes) := lift (LabelEncoder_fit_transform y) in
        let* _ := set_label_encoder (Some fitted) in
        ret codes
    | Some enc =>
        let* y := lift (getitem df_processed "transaction_type") in
        lift (LabelEncoder_transform enc y)
    end in
  let df_processed := setitem df_processed "transaction_type_encoded" codes in
  let feature_columns := model_features in
  let* _ := lift (ensure_columns df_processed feature_columns) in
  let* X := lift (select df_processed feature_columns) in
  let* means := lift (mean X) in
  let X := fillna X means in
  ret (X, feature_columns).

(** ** [train]

    The lines that print the training statistics are left out; the two calls
    they make on the fitted model are kept, as they can raise. *)
Definition train (df : DataFrame) : M IsolationForest :=
  let* (X, cols) := preprocess_features df in
  let* _ := set_feature_columns (Some cols) in
  let* _ := set_scaler (Some StandardScaler_new) in
  let* (sc, X_scaled) := lift (StandardScaler_fit_transform X) in
  let* _ := set_scaler (Some sc) in
  let m := IsolationForest_new
             {| n_estimators := 100;
                max_samples := "auto";
                contamination := 0.04;
                random_state := 42;
                n_jobs := -1 |} in
  let* _ := set_model (Some m) in
  let* m := lift (IsolationForest_fit m X_scaled) in
  let* _ := set_model (Some m) in
  let* _ := set_is_trained true in
  let* predictions := lift (IsolationForest_predict m X_scaled) in
  let* anomaly_scores := lift (IsolationForest_decision_function m X_scaled) in
  ret m.

(** ** [_generate_explanation] *)

(** The argument [transaction_data] of [predict]: a dict, or a frame. *)
Inductive transaction_data : Type :=
| TDict (d : gmap string pyval)
| TFrame (df : DataFrame).

(** What [transaction_data.get(key, default)] returns: a value of the dict,
    a column of the frame, or the default. *)
Inductive field : Type :=
| Scalar (v : pyval)
| Series (col : list pyval).

Definition td_get (td : transaction_data) (key : string) (dflt : pyval) : field :=
  match td with
  | TDict d => Scalar (dict_get d key dflt)
  | TFrame df =>
      match df !! key with
      | Some col => Series col
      | None => Scalar dflt
      end
  end.

(** The condition of an [if]: a comparison on a column has no truth value. *)
Definition test (cmp : pyval -> Q -> result bool) (f : field) (c : Q)
  : result bool :=
  match f with
  | Scalar v => cmp v c
  | Series _ => Raise (ValueError "The truth value of a Series is ambiguous")
  end.

Definition fmt_float (comma : bool) (digits : nat) (f : field) : result string :=
  match f with
  | Scalar v => format_float comma digits v
  | Series _ => Raise (TypeError "unsupported format string passed to Series.__format__")
  end.

Definition fmt_str (f : field) : result string :=
  match f with
  | Scalar v => Ok (py_str v)
  | Series _ => Raise (TypeError "a Series where a value is expected")
  end.

(** [if cond: explanations.append(text)]; the text is built only when the
    condition holds. *)
Definition append_if (cond : result bool) (text : result string)
    (explanations : list string) : result (list string) :=
  let? c := cond in
  if c
  then let? s := text in Ok (explanations ++ [s])
  else Ok explanations.

(** [hour < 6 or hour > 22] *)
Definition unusual_hour (hour : field) : result bool :=
  let? early := test py_lt hour 6 in
  if early then Ok true else test py_gt hour 22.

(** The list [explanations], as the function has built it before the
    join. *)
Definition explanations (td : transaction_data) (anomaly_score : Q)
    (prediction_label : string) : result (list string) :=
  let explanations := [] in
  if String.eqb prediction_label "FRAUD" then
    let explanations :=
      explanations ++ ["Transaction flagged as potentially fraudulent"] in
    let amount := td_get td "amount" (PInt 0) in
    let? explanations :=
      append_if (test py_gt amount 10000)
        (let? s := fmt_float true 2 amount in
         Ok ("High transaction amount: $" +:+ s))
        explanations in
    let location_risk := td_get td "location_risk_score" (PInt 0) in
    let? explanations :=
      append_if (test py_gt location_risk 0.7)
        (let? s := fmt_float false 3 location_risk in
         Ok ("High location risk score: " +:+ s))
        explanations in
    let device_risk := td_get td "device_risk_score" (PInt 0) in
    let? explanations :=
      append_if (test py_gt device_risk 0.7)
        (let? s := fmt_float false 3 device_risk in
         Ok ("High device risk score: " +:+ s))
        explanations in
    let hour := td_get td "transaction_hour" (PInt 0) in
    let? explanations :=
      append_if (unusual_hour hour)
        (let? s := fmt_str hour in
         Ok ("Unusual transaction time: " +:+ s +:+ ":00"))
        explanations in
    let past_tx := td_get td "past_transactions_24h" (PInt 0) in
    let? explanations :=
      append_if (test py_gt past_tx 20)
        (let? s := fmt_str past_tx in
         Ok ("High activity: " +:+ s +:+ " transactions in 24h"))
        explanations in
    let account_age := td_get td "account_age_days" (PInt 0) in
    let? explanations :=
      append_if (test py_lt account_age 30)
        (let? s := fmt_str account_age in
         Ok ("New account: " +:+ s +:+ " days old"))
        explanations in
    Ok explanations
  else
    let explanations := explanations ++ ["Transaction appears normal"] in
    let explanations :=
      if Qltb 0.1 anomaly_score
      then explanations ++ ["Low risk profile detected"]
      else explanations in
    Ok explanations.

Definition _generate_explanation (td : transaction_data) (anomaly_score : Q)
    (prediction_label : string) : result string :=
  let? explanations := explanations td anomaly_score prediction_label in
  Ok (String.concat " | " explanations).

(** ** [predict] *)

Record PredictionResult : Type := {
  prediction : string;
  anomaly_score : Q;
  risk_level : string;
  explanation : string
}.

(** [a[0]] *)
Definition first {A} (a : list A) : result A :=
  match a with
  | x :: _ => Ok x
  | [] => Raise (IndexError "index 0 is out of bounds for axis 0 with size 0")
  end.

(** The frame [df] of [predict]: [pd.DataFrame([transaction_data])] for a
    dict, a copy of the frame otherwise. *)
Definition as_frame (td : transaction_data) : DataFrame :=
  match td with
  | TDict d => of_dict d
  | TFrame df => df
  end.

Definition predict (td : transaction_data) : M PredictionResult :=
  let* trained := get is_trained in
  if negb trained
  then raise (ValueError "Model must be trained before making predictions")
  else
    let df := as_frame td in
    let* (X, _) := preprocess_features df in
    let* sc := get scaler in
    let* X_scaled :=
      match sc with
      | None => raise (AttributeError "'NoneType' object has no attribute 'transform'")
      | Some sc => lift (StandardScaler_transform sc X)
      end in
    let* m := get model in
    match m with
    | None => raise (AttributeError "'NoneType' object has no attribute 'predict'")
    | Some m =>
        let* predictions := lift (IsolationForest_predict m X_scaled) in
        let* prediction := lift (first predictions) in
        let* scores := lift (IsolationForest_decision_function m X_scaled) in
        let* anomaly_score := lift (first scores) in
        let prediction_label :=
          if Z.eqb prediction (-1) then "FRAUD" else "SAFE" in
        let risk_level :=
          if Qltb anomaly_score (-0.1) then "HIGH"
          else if Qltb anomaly_score 0 then "MEDIUM"
          else "LOW" in
        let* explanation :=
          lift (_generate_explanation td anomaly_score prediction_label) in
        ret {| prediction := prediction_label;
               anomaly_score := anomaly_score;
               risk_level := risk_level;
               explanation := explanation |}
    end.

End FraudDetectionModel.

End Model.

(* ===================================================================== *)
(** * [backend/data_generator.py]                                         *)
(* ===================================================================== *)

Module Generator.
Import Py Pandas.

(** ** The random sources

    [np.random] is a global generator: every draw reads its state and leaves
    a new one.  The samplers are numpy's; what the code relies on is their
    range. *)
Class NumpyRandom : Type := {
  rng : Type;
  np_seed : Z -> rng;
  lognormal : Q -> Q -> rng -> Q * rng;
  gamma : Q -> Q -> rng -> Q * rng;
  beta : Q -> Q -> rng -> Q * rng;
  uniform : Q -> Q -> rng -> Q * rng;
  poisson : Q -> rng -> Z * rng;
  randint : Z -> Z -> rng -> Z * rng;
  (** the index [np.random.choice] draws among [n] items, uniformly or with
      the probabilities [p] *)
  choice_index : nat -> option (list Q) -> rng -> nat * rng;
  shuffle : forall {A : Type}, list A -> rng -> list A * rng;
  (** the state of Python's own [random] module *)
  pyrandom : Type;
  random_seed : Z -> pyrandom;

  beta_range : forall a b s, (0 <= (beta a b s).1 <= 1)%Q;
  uniform_range : forall lo hi s,
    (lo <= hi)%Q -> (lo <= (uniform lo hi s).1 <= hi)%Q;
  choice_index_range : forall n p s,
    (0 < n)%nat ->
    match p with
    | None => True
    | Some p => length p = n /\ Forall (fun w => 0 <= w)%Q p /\ (Pandas.Qsum p == 1)%Q
    end ->
    ((choice_index n p s).1 < n)%nat;
  shuffle_permutation : forall A (l : list A) s, Permutation (shuffle l s).1 l
}.

Section TransactionDataGenerator.
Context `{NumpyRandom}.

(** The two global generators. *)
Record Globals : Type := { np_random : rng; py_random : pyrandom }.

(** ** State passing over the global generators *)
Definition G (A : Type) : Type := Globals -> A * Globals.

Definition ret {A} (a : A) : G A := fun g => (a, g).

Definition bind {A B} (m : G A) (k : A -> G B) : G B :=
  fun g => let (a, g') := m g in k a g'.

(** A draw from [np.random]. *)
Definition np {A} (draw : rng -> A * rng) : G A :=
  fun g =>
    let (a, s) := draw (np_random g) in
    (a, {| np_random := s; py_random := py_random g |}).

Notation "'let*' x ':=' m 'in' k" := (bind m (fun x => k))
  (at level 10, x pattern, m at level 100, k at level 200).

(** [np.random.choice(a)] and [np.random.choice(a, p=p)] on a list. *)
Definition choice {A} (a : list A) (p : option (list Q)) (dflt : A) : G A :=
  let* i := np (choice_index (length a) p) in
  ret (nth i a dflt).

(** [range(n)] *)
Definition range (n : Z) : list nat := seq 0 (Z.to_nat n).

(** A loop [for i in indices] whose body appends one item to a list. *)
Fixpoint for_range {A} (body : nat -> G A) (indices : list nat) : G (list A) :=
  match indices with
  | [] => ret []
  | i :: indices' =>
      let* a := body i in
      let* rest := for_range body indices' in
      ret (a :: rest)
  end.

(** [TransactionDataGenerator(seed)] *)
Definition __init__ (seed : Z) : G unit :=
  fun _ => (tt, {| np_random := np_seed seed; py_random := random_seed seed |}).

(** The dict literal both generators build. *)
Definition transaction (transaction_id : string) (amount : Q)
    (transaction_type : string) (account_age_days : Z)
    (location_risk_score device_risk_score : Q)
    (transaction_hour past_transactions_24h is_anomaly : Z)
  : gmap string pyval :=
  list_to_map
    [("transaction_id", PStr transaction_id);
     ("amount", PFloat amount);
     ("transaction_type", PStr transaction_type);
     ("account_age_days", PInt account_age_days);
     ("location_risk_score", PFloat location_risk_score);
     ("device_risk_score", PFloat device_risk_score);
     ("transaction_hour", PInt transaction_hour);
     ("past_transactions_24h", PInt past_transactions_24h);
     ("is_anomaly", PInt is_anomaly)].

(** ** [generate_normal_transactions] *)

Definition hour_weights_raw : list Q :=
  [0.02; 0.01; 0.01; 0.01; 0.02; 0.03; 0.05; 0.08;
   0.10; 0.09; 0.08; 0.07; 0.06; 0.07; 0.08; 0.09;
   0.10; 0.12; 0.15; 0.08; 0.05; 0.03; 0.02; 0.01]%Q.

(** One turn of the loop of [generate_normal_transactions]. *)
Definition normal_transaction (i : nat) : G (gmap string pyval) :=
  let* amount := np (lognormal 3 1.5) in
  let amount := clip amount 1 50000 in
  let transaction_types := ["purchase"; "transfer"; "withdrawal"; "payment"] in
  let type_weights := [0.4; 0.25; 0.2; 0.15]%Q in
  let* transaction_type := choice transaction_types (Some type_weights) "" in
  let* account_age_days := np (gamma 2 365) in
  let* location_risk_score := np (beta 2 10) in
  let* device_risk_score := np (beta 3 8) in
  let hour_weights := hour_weights_raw in
  let hour_weights := map (fun w => w / Pandas.Qsum hour_weights)%Q hour_weights in
  let* transaction_hour := np (choice_index 24 (Some hour_weights)) in
  let* past_transactions_24h := np (poisson 5) in
  ret (transaction
         ("TXN_" +:+ zfill 6 (str_int (Z.of_nat i + 1)))
         (round_ndigits amount 2)
         transaction_type
         (int_of_float account_age_days)
         (round_ndigits location_risk_score 3)
         (round_ndigits device_risk_score 3)
         (Z.of_nat transaction_hour)
         past_transactions_24h
         0).

Definition generate_normal_transactions (n_transactions : Z)
  : G (list (gmap string pyval)) :=
  for_range normal_transaction (range n_transactions).

(** ** [generate_fraudulent_transactions] *)

(** What the branch of a fraud type assigns: the amount, the type and the
    hour always; the two risk scores only for [high_risk], the activity only
    for [burst] (the two [if fraud_type != ...] below draw the others). *)
Definition fraud_pattern (fraud_type : string)
  : G (Q * string * Z * option (Q * Q) * option Z) :=
  if String.eqb fraud_type "high_amount" then
    let* amount := np (lognormal 8 1.5) in
    let amount := clip amount 10000 100000 in
    let* transaction_type := choice ["transfer"; "purchase"] None "" in
    let* transaction_hour :=
      choice (map Z.of_nat (seq 9 12)) None 0 in
    ret (amount, transaction_type, transaction_hour, None, None)
  else if String.eqb fraud_type "late_night" then
    let* amount := np (lognormal 4 1.5) in
    let amount := clip amount 100 10000 in
    let* transaction_type := choice ["transfer"; "withdrawal"] None "" in
    let* transaction_hour := choice [0; 1; 2; 3; 4; 5; 22; 23] None 0 in
    ret (amount, transaction_type, transaction_hour, None, None)
  else if String.eqb fraud_type "high_risk" then
    let* amount := np (lognormal 5 1.5) in
    let amount := clip amount 500 20000 in
    let* transaction_type := choice ["transfer"; "purchase"] None "" in
    let* transaction_hour := np (choice_index 24 None) in
    let* location_risk_score := np (uniform 0.7 1.0) in
    let* device_risk_score := np (uniform 0.7 1.0) in
    ret (amount, transaction_type, Z.of_nat transaction_hour,
         Some (location_risk_score, device_risk_score), None)
  else
    let* amount := np (lognormal 3.5 1.0) in
    let amount := clip amount 50 5000 in
    let* transaction_type := choice ["purchase"; "payment"] None "" in
    let* transaction_hour := np (choice_index 24 None) in
    let* past_transactions_24h := np (randint 20 50) in
    ret (amount, transaction_type, Z.of_nat transaction_hour,
         None, Some past_transactions_24h).

(** One turn of the loop of [generate_fraudulent_transactions], with the
    fraud type it drew. *)
Definition fraud_transaction (i : nat) : G (string * gmap string pyval) :=
  let* fraud_type :=
    choice ["high_amount"; "late_night"; "high_risk"; "burst"] None "" in
  let* (amount, transaction_type, transaction_hour, risk, activity) :=
    fraud_pattern fraud_type in
  let* (location_risk_score, device_risk_score) :=
    match risk with
    | Some scores => ret scores
    | None =>
        let* location_risk_score := np (beta 1 3) in
        let* device_risk_score := np (beta 1 2) in
        ret (location_risk_score, device_risk_score)
    end in
  let* past_transactions_24h :=
    match activity with
    | Some n => ret n
    | None => np (poisson 8)
    end in
  let* account_age_days := np (gamma 1 180) in
  ret (fraud_type,
       transaction
         ("FRD_" +:+ zfill 6 (str_int (Z.of_nat i + 1)))
         (round_ndigits amount 2)
         transaction_type
         (int_of_float account_age_days)
         (round_ndigits location_risk_score 3)
         (round_ndigits device_risk_score 3)
         transaction_hour
         past_transactions_24h
         1).

Definition generate_fraudulent_transactions (n_transactions : Z)
  : G (list (gmap string pyval)) :=
  let* drawn := for_range fraud_transaction (range n_transactions) in
  ret (map snd drawn).

(** ** [generate_dataset] *)

(** The list the frame is made of: [all_transactions] after the shuffle. *)
Definition all_transactions : G (list (gmap string pyval)) :=
  let* normal_transactions := generate_normal_transactions 10000 in
  let* fraudulent_transactions := generate_fraudulent_transactions 400 in
  let all_transactions := normal_transactions ++ fraudulent_transactions in
  np (shuffle all_transactions).

Definition generate_dataset : G DataFrame :=
  let* all_transactions := all_transactions in
  let df := of_records all_transactions in
  ret df.

End TransactionDataGenerator.

End Generator.

(* ===================================================================== *)
(** * [backend/main.py]: the request                                      *)
(* ===================================================================== *)

Module Api.
Import Py.

(** The pydantic model [TransactionRequest]. *)
Record TransactionRequest : Type := {
  amount : Q;
  transaction_type : string;
  account_age_days : Z;
  location_risk_score : Q;
  device_risk_score : Q;
  transaction_hour : Z;
  past_transactions_24h : Z
}.

(** [transaction.dict()] *)
Definition dict (t : TransactionRequest) : gmap string pyval :=
  list_to_map
    [("amount", PFloat (amount t));
     ("transaction_type", PStr (transaction_type t));
     ("account_age_days", PInt (account_age_days t));
     ("location_risk_score", PFloat (location_risk_score t));
     ("device_risk_score", PFloat (device_risk_score t));
     ("transaction_hour", PInt (transaction_hour t));
     ("past_transactions_24h", PInt (past_transactions_24h t))].

End Api.

(* ===================================================================== *)
(** * The explanation, as the specification states it                     *)
(* ===================================================================== *)

(** Section 4.4 of the specification: a leading summary line; for FRAUD the
    six checks in their fixed order, each finding included only if its
    condition holds; for SAFE the low-risk note when the decision-function
    value is above 0.1; the whole joined with a separator.  The wording of
    the findings is the code's. *)
Module Spec.
Import Py Api.

Inductive label : Type := FRAUD | SAFE.

Definition label_name (l : label) : string :=
  match l with
  | FRAUD => "FRAUD"
  | SAFE => "SAFE"
  end.

(** [x > bound] *)
Definition exceeds (x bound : Q) : bool :=
  match Qcompare x bound with
  | Gt => true
  | _ => false
  end.

(** The checks of a FRAUD record: condition and finding. *)
Definition fraud_checks (t : TransactionRequest) : list (bool * string) :=
  [(exceeds (amount t) 10000,
    "High transaction amount: $" +:+ format_fixed true 2 (amount t));
   (exceeds (location_risk_score t) 0.7,
    "High location risk score: " +:+ format_fixed false 3 (location_risk_score t));
   (exceeds (device_risk_score t) 0.7,
    "High device risk score: " +:+ format_fixed false 3 (device_risk_score t));
   (negb (bool_decide (6 <= transaction_hour t <= 22)),
    "Unusual transaction time: " +:+ str_int (transaction_hour t) +:+ ":00");
   (bool_decide (20 < past_transactions_24h t),
    "High activity: " +:+ str_int (past_transactions_24h t) +:+ " transactions in 24h");
   (bool_decide (account_age_days t < 30),
    "New account: " +:+ str_int (account_age_days t) +:+ " days old")].

Definition explain (t : TransactionRequest) (decision_function_value : Q)
    (l : label) : string :=
  String.concat " | "
    match l with
    | FRAUD =>
        "Transaction flagged as potentially fraudulent"
        :: map snd (List.filter fst (fraud_checks t))
    | SAFE =>
        "Transaction appears normal"
        :: (if exceeds decision_function_value 0.1
            then ["Low risk profile detected"] else [])
    end.

End Spec.

(* ===================================================================== *)
(** * The vocabulary of the statements                                    *)
(* ===================================================================== *)

Module Statements.
Import Py Pandas.

(** The record holds a float between [lo] and [hi] under [key]. *)
Definition float_field (t : gmap string pyval) (key : string) (lo hi : Q) : Prop :=
  exists x, t !! key = Some (PFloat x) /\ (lo <= x <= hi)%Q.

(** The record holds an integer between [lo] and [hi] under [key]. *)
Definition int_field (t : gmap string pyval) (key : string) (lo hi : Z) : Prop :=
  exists z, t !! key = Some (PInt z) /\ lo <= z <= hi.

(** The ground-truth label of a record of the corpus is 1. *)
Definition is_fraud (t : gmap string pyval) : bool :=
  match t !! "is_anomaly" with
  | Some (PInt 1) => true
  | _ => false
  end.

(** The contamination ratio of a corpus: fraud over total. *)
Definition contamination_ratio (corpus : list (gmap string pyval)) : Q :=
  inject_Z (Z.of_nat (length (List.filter is_fraud corpus)))
  / inject_Z (Z.of_nat (length corpus)).

(** The column of a feature in what [preprocess_features] returned. *)
Definition feature (c : string) (r : result (Selection * list string))
  : option (list pyval) :=
  match r with
  | Ok (X, _) => (list_to_map X : gmap string (list pyval)) !! c
  | Raise _ => None
  end.

(** The fields [_generate_explanation] reads. *)
Definition explained_fields : list string :=
  ["amount"; "location_risk_score"; "device_risk_score";
   "transaction_hour"; "past_transactions_24h"; "account_age_days"].

(** A record in which each of these fields is 0. *)
Definition zero_fields : gmap string pyval :=
  list_to_map (map (fun k => (k, PInt 0)) explained_fields).

(** A number, [nan] included: anything but a string. *)
Definition numeric (v : pyval) : Prop :=
  match v with
  | PStr _ => False
  | _ => True
  end.

(** A number of the size of a float: a float, [nan], or an integer that
    [float] accepts. *)
Definition float_sized (v : pyval) : Prop :=
  match v with
  | PStr _ => False
  | PInt z => int_overflows z = false
  | _ => True
  end.

(** The columns of a frame that [preprocess_features] reads. *)
Definition input_columns : list string :=
  ["transaction_type"; "amount"; "account_age_days"; "location_risk_score";
   "device_risk_score"; "transaction_hour"; "past_transactions_24h"].

(** A column filled with its own mean: the cells that are [nan] take the
    mean of the others, and stay [nan] when there is no other. *)
Definition filled (col : list pyval) : list pyval :=
  match rmap to_float col with
  | Ok xs => map (fill_cell (nanmean xs)) col
  | Raise _ => col
  end.

End Statements.

(* ===================================================================== *)
(** * A runtime to run the code on                                        *)
(* ===================================================================== *)

(** Stand-ins for the libraries, so that the embedding can be evaluated on
    concrete inputs: a square root and a float printer precise to six
    decimals, a linear congruential generator behind numpy's samplers, and
    a forest that scores a row by the sum of its standardized deviations.  The
    theorems below hold for every runtime; these only serve to run
    examples. *)
Module Reference.
Import Py Pandas Sklearn.

#[export] Instance float_runtime : FloatRuntime := {|
  float_sqrt q := Z.sqrt (Qnum q * 10 ^ 12 / Z.pos (Qden q)) # 10 ^ 6;
  float_repr q := format_fixed false 6 q
|}.

Definition deviation (x : float) : result Q :=
  match x with
  | Some x => Ok (Qabs x)
  | None => Raise (ValueError "Input X contains NaN.")
  end.

#[export] Instance forest_runtime : ForestRuntime := {|
  forest := unit;
  forest_fit _ X := let? _ := rmap (rmap deviation) X in Ok tt;
  forest_decision _ row :=
    let? ds := rmap deviation row in
    Ok (0.5 - foldr Qplus 0 ds / 14)%Q
|}.

Definition lcg (s : Z) : Z := (s * 1103515245 + 12345) mod 2 ^ 31.

(** A fraction in [0, 1) read off the state. *)
Definition fraction (s : Z) : Q := (s mod 1000) # 1000.

#[export] Instance numpy_random : Generator.NumpyRandom.
Proof.
  refine {|
    Generator.rng := Z;
    Generator.np_seed seed := seed mod 2 ^ 31;
    Generator.lognormal mu sigma s := (inject_Z (s mod 200000) / 2, lcg s)%Q;
    Generator.gamma shape scale s := (2 * shape * scale * fraction s, lcg s)%Q;
    Generator.beta a b s := (fraction s, lcg s);
    Generator.uniform lo hi s := (lo + (hi - lo) * fraction s, lcg s)%Q;
    Generator.poisson lam s := (s mod 12, lcg s);
    Generator.randint lo hi s := (lo + s mod (hi - lo), lcg s);
    Generator.choice_index n p s := (Z.to_nat (s mod Z.of_nat n), lcg s);
    Generator.shuffle A l s := (rev l, lcg s);
    Generator.pyrandom := Z;
    Generator.random_seed seed := seed
  |}.
  - intros _ _ s. cbn. unfold fraction, Qle. cbn.
    pose proof (Z.mod_pos_bound s 1000). lia.
  - intros lo hi s Hle. cbn.
    assert (0 <= fraction s <= 1)%Q as Hf.
    { unfold fraction, Qle. cbn. pose proof (Z.mod_pos_bound s 1000). lia. }
    split; nra.
  - intros n p s Hn _. cbn.
    pose proof (Z.mod_pos_bound s (Z.of_nat n)). lia.
  - intros A l s. cbn. symmetry. apply Permutation_rev.
Defined.

(** ** Inputs for the examples *)

(** The global generators before any seeding. *)
Definition unseeded : Generator.Globals :=
  {| Generator.np_random := 7; Generator.py_random := 7 |}.

(** A request as [main.py] hands it to [predict]. *)
Definition record (amount : pyval) (transaction_type : string)
    (account_age_days : Z) (location_risk_score device_risk_score : Q)
    (transaction_hour past_transactions_24h : Z) : gmap string pyval :=
  list_to_map
    [("amount", amount);
     ("transaction_type", PStr transaction_type);
     ("account_age_days", PInt account_age_days);
     ("location_risk_score", PFloat location_risk_score);
     ("device_risk_score", PFloat device_risk_score);
     ("transaction_hour", PInt transaction_hour);
     ("past_transactions_24h", PInt past_transactions_24h)].

(** A record of the corpus: with its ground-truth label. *)
Definition labelled (r : gmap string pyval) (is_anomaly : Z) : gmap string pyval :=
  <["is_anomaly" := PInt is_anomaly]> r.

(** A corpus of three records; the mean of [amount] is 30010. *)
Definition small_corpus : DataFrame :=
  of_records
    [labelled (record (PFloat 10) "purchase" 400 0.1 0.2 12 5) 0;
     labelled (record (PFloat 20) "transfer" 300 0.2 0.3 14 4) 0;
     labelled (record (PFloat 90000) "transfer" 10 0.9 0.85 3 30) 1].

(** The model [train] returns on it, and the state it leaves. *)
Definition small_forest : IsolationForest :=
  {| params := {| n_estimators := 100; max_samples := "auto";
                  contamination := 0.04; random_state := 42; n_jobs := -1 |};
     estimators_ := Some tt |}.

Definition fitted : Model.FraudDetectionModel :=
  (Model.train small_corpus Model.__init__).2.

(** Requests: an ordinary one, one like the anomalous record of the corpus,
    one whose amount is missing, one of a category the corpus lacks. *)
Definition ordinary_request : gmap string pyval :=
  record (PFloat 15) "purchase" 350 0.15 0.25 13 5.

Definition anomalous_request : gmap string pyval :=
  record (PFloat 90000) "transfer" 10 0.9 0.85 3 30.

Definition request_without_amount : gmap string pyval :=
  record PNaN "purchase" 350 0.15 0.25 13 5.

Definition payment_request : gmap string pyval :=
  record (PFloat 15) "payment" 350 0.15 0.25 13 5.

(** Two frames of two requests each, the first without its amount. *)
Definition batch (amount : Q) : DataFrame :=
  of_records [request_without_amount;
              record (PFloat amount) "purchase" 350 0.15 0.25 13 5].

End Reference.

(* ===================================================================== *)
(** * Numbers: comparisons, rounding, clipping                            *)
(* ===================================================================== *)

Module Rounding.
Import Py.

Lemma Qltb_ge (a b : Q) : Qltb a b = false <-> (b <= a)%Q.
Proof.
  unfold Qltb. rewrite negb_false_iff. apply Qle_bool_iff.
Qed.

Lemma Qltb_lt (a b : Q) : Qltb a b = true <-> (a < b)%Q.
Proof.
  unfold Qltb. rewrite negb_true_iff, <- not_true_iff_false, Qle_bool_iff.
  split; [apply Qnot_le_lt | apply Qlt_not_le].
Qed.

Lemma Qltb_exceeds (x bound : Q) : Qltb bound x = Spec.exceeds x bound.
Proof.
  unfold Spec.exceeds. destruct (Qcompare_spec x bound) as [E|L|G].
  - apply not_true_iff_false. rewrite Qltb_lt. lra.
  - apply not_true_iff_false. rewrite Qltb_lt. lra.
  - now apply Qltb_lt.
Qed.

Lemma Qltb_inject_Z (a b : Z) : Qltb (inject_Z a) (inject_Z b) = bool_decide (a < b).
Proof.
  destruct (bool_decide (a < b)) eqn:E.
  - apply bool_decide_eq_true in E. apply Qltb_lt. now rewrite <- Zlt_Qlt.
  - apply bool_decide_eq_false in E. apply not_true_iff_false.
    rewrite Qltb_lt, <- Zlt_Qlt. exact E.
Qed.

(** [rint] returns the floor, or the integer above it when the fraction is a
    half or more. *)
Lemma Qrint_cases q : Qrint q = Qfloor q \/ (Qrint q = Qfloor q + 1 /\ (inject_Z (Qfloor q) < q)%Q).
Proof.
  unfold Qrint.
  destruct (Qcompare_spec (q - inject_Z (Qfloor q)) (1 # 2)) as [E|L|G].
  - destruct (Z.even (Qfloor q)); [now left | right; split; [easy | lra]].
  - now left.
  - right; split; [easy | lra].
Qed.

Lemma Qrint_ge (k : Z) (q : Q) : (inject_Z k <= q)%Q -> k <= Qrint q.
Proof.
  intros Hk.
  assert (k <= Qfloor q) as Hf.
  { rewrite <- (Qfloor_Z k). now apply Qfloor_resp_le. }
  destruct (Qrint_cases q) as [-> | [-> _]]; lia.
Qed.

Lemma Qrint_le (k : Z) (q : Q) : (q <= inject_Z k)%Q -> Qrint q <= k.
Proof.
  intros Hk.
  destruct (Qrint_cases q) as [-> | [-> Hlt]].
  - rewrite <- (Qfloor_Z k). now apply Qfloor_resp_le.
  - assert (inject_Z (Qfloor q) < inject_Z k)%Q as H by lra.
    rewrite <- Zlt_Qlt in H. lia.
Qed.

Lemma round_ndigits_bounds (lo hi : Z) (x : Q) (n : nat) :
  (inject_Z lo <= x <= inject_Z hi)%Q ->
  (inject_Z lo <= round_ndigits x n <= inject_Z hi)%Q.
Proof.
  intros [Hlo Hhi]. unfold round_ndigits.
  set (s := 10 ^ Z.of_nat n).
  assert (0 < s) as Hs by (apply Z.pow_pos_nonneg; lia).
  assert (0 < inject_Z s)%Q as HsQ by (rewrite <- (Zlt_Qlt 0); exact Hs).
  split.
  - apply Qle_shift_div_l; [exact HsQ|].
    rewrite <- inject_Z_mult, <- Zle_Qle.
    apply Qrint_ge. rewrite inject_Z_mult. nra.
  - apply Qle_shift_div_r; [exact HsQ|].
    rewrite <- inject_Z_mult, <- Zle_Qle.
    apply Qrint_le. rewrite inject_Z_mult. nra.
Qed.

Lemma clip_bounds x lo hi : (lo <= hi)%Q -> (lo <= clip x lo hi <= hi)%Q.
Proof.
  intros H. unfold clip. split.
  - apply Q.min_glb; [apply Q.le_max_r | exact H].
  - apply Q.le_min_r.
Qed.
End Rounding.

(* ===================================================================== *)
(** * The generated corpus                                                *)
(* ===================================================================== *)

Module Corpus.
Import Py Pandas Generator Statements Rounding.

Section Generated.
Context `{NumpyRandom}.

(** ** Loops *)

Lemma for_range_In {A} (body : nat -> G A) (indices : list nat) (g : Globals) (a : A) :
  In a (for_range body indices g).1 -> exists i g', In i indices /\ a = (body i g').1.
Proof.
  revert g. induction indices as [|i indices IH]; intros g; cbn.
  - intros [].
  - unfold bind. destruct (body i g) as [b g1] eqn:Eb.
    destruct (for_range body indices g1) as [rest g2] eqn:Er. cbn.
    intros [<- | Hin].
    + exists i, g. rewrite Eb. auto.
    + specialize (IH g1). rewrite Er in IH. destruct (IH Hin) as (j & g' & Hj & ->).
      exists j, g'. auto.
Qed.

Lemma for_range_length {A} (body : nat -> G A) (indices : list nat) (g : Globals) :
  length (for_range body indices g).1 = length indices.
Proof.
  revert g. induction indices as [|i indices IH]; intros g; cbn; [reflexivity|].
  unfold bind. destruct (body i g) as [b g1].
  specialize (IH g1). destruct (for_range body indices g1) as [rest g2]. cbn in *. lia.
Qed.

Lemma range_length (n : Z) : 0 <= n -> Z.of_nat (length (range n)) = n.
Proof. intros Hn. unfold range. rewrite length_seq. lia. Qed.

(** ** Draws *)

Lemma np_fst {A} (draw : rng -> A * rng) (g : Globals) :
  (np draw g).1 = (draw (np_random g)).1.
Proof. unfold np. now destruct (draw (np_random g)). Qed.

Lemma choice_in {A} (P : A -> Prop) (a : list A) p dflt g :
  Forall P a -> P dflt -> P (choice a p dflt g).1.
Proof.
  intros Ha Hd. unfold choice, bind, ret.
  destruct (np (choice_index (length a) p) g) as [i s]. cbn.
  destruct (nth_in_or_default i a dflt) as [Hin | ->]; [|exact Hd].
  rewrite Forall_forall in Ha. apply Ha. now apply list_elem_of_In.
Qed.

(** The probabilities handed to [np.random.choice] are valid: as many as
    the items, none negative, of sum 1 (for the hours, after the
    normalization). *)
Lemma hour_weights_valid :
  let p := map (fun w => w / Pandas.Qsum hour_weights_raw)%Q hour_weights_raw in
  length p = 24%nat /\ Forall (fun w => 0 <= w)%Q p /\ (Pandas.Qsum p == 1)%Q.
Proof.
  cbv zeta. split; [reflexivity|]. split.
  - repeat constructor; discriminate.
  - reflexivity.
Qed.

Lemma type_weights_valid :
  let p := [0.4; 0.25; 0.2; 0.15]%Q in
  length p = 4%nat /\ Forall (fun w => 0 <= w)%Q p /\ (Pandas.Qsum p == 1)%Q.
Proof.
  cbv zeta. split; [reflexivity|]. split.
  - repeat constructor; discriminate.
  - reflexivity.
Qed.

Lemma np_beta_range a b g : (0 <= (np (beta a b) g).1 <= 1)%Q.
Proof. rewrite np_fst. apply beta_range. Qed.

Lemma np_uniform_range lo hi g :
  (lo <= hi)%Q -> (lo <= (np (uniform lo hi) g).1 <= hi)%Q.
Proof. rewrite np_fst. apply uniform_range. Qed.

Lemma np_hour_range p g :
  match p with
  | None => True
  | Some p => length p = 24%nat /\ Forall (fun w => 0 <= w)%Q p /\ (Pandas.Qsum p == 1)%Q
  end ->
  0 <= Z.of_nat (np (choice_index 24 p) g).1 <= 23.
Proof.
  intros Hp. rewrite np_fst.
  pose proof (choice_index_range 24 p (np_random g) (Nat.lt_0_succ 23) Hp). lia.
Qed.

(** Destructs the draws of a generator run, one after the other, keeping
    what each draw returned. *)
Ltac step_draws :=
  unfold bind, ret;
  repeat match goal with
    | |- context [let (_, _) := ?d in _] =>
        let E := fresh "Edraw" in
        destruct d eqn:E; apply (f_equal fst) in E; cbn [fst] in E
    end.

Ltac field_holds := eexists; split; [reflexivity|].

Lemma normal_transaction_bounds (i : nat) (g : Globals) :
  let t := (normal_transaction i g).1 in
  float_field t "amount" 1 50000 /\
  int_field t "transaction_hour" 0 23 /\
  float_field t "location_risk_score" 0 1 /\
  float_field t "device_risk_score" 0 1 /\
  t !! "is_anomaly" = Some (PInt 0).
Proof.
  unfold normal_transaction. step_draws. cbn [fst]. subst.
  split; [|split; [|split; [|split]]].
  - field_holds. apply (round_ndigits_bounds 1 50000). now apply clip_bounds.
  - field_holds. apply np_hour_range, hour_weights_valid.
  - field_holds. apply (round_ndigits_bounds 0 1), np_beta_range.
  - field_holds. apply (round_ndigits_bounds 0 1), np_beta_range.
  - reflexivity.
Qed.

Ltac step_draws_in E :=
  unfold bind, ret in E;
  repeat match type of E with
    | context [let (_, _) := ?d in _] =>
        let Ed := fresh "Edraw" in
        destruct d eqn:Ed; apply (f_equal fst) in Ed; cbn [fst] in Ed
    end;
  injection E as E; subst.

Lemma fraud_pattern_bounds (fraud_type : string) (g g' : Globals)
    amount ty hour risk activity :
  fraud_pattern fraud_type g = ((amount, ty, hour, risk, activity), g') ->
  0 <= hour <= 23 /\
  (forall l d, risk = Some (l, d) -> (0 <= l <= 1)%Q /\ (0 <= d <= 1)%Q) /\
  (fraud_type = "high_amount" -> (10000 <= amount <= 100000)%Q).
Proof.
  unfold fraud_pattern. intros E.
  destruct (String.eqb_spec fraud_type "high_amount") as [->|Hne1];
    [|destruct (String.eqb_spec fraud_type "late_night") as [->|Hne2];
      [|destruct (String.eqb_spec fraud_type "high_risk") as [->|Hne3]]];
    step_draws_in E.
  - split; [|split].
    + apply (choice_in (fun h => 0 <= h <= 23)); [|lia].
      cbn. repeat constructor; lia.
    + discriminate.
    + intros _. now apply clip_bounds.
  - split; [|split].
    + apply (choice_in (fun h => 0 <= h <= 23)); [|lia].
      repeat constructor; lia.
    + discriminate.
    + discriminate.
  - split; [|split].
    + now apply np_hour_range.
    + intros l d [= <- <-].
      split.
      * pose proof (np_uniform_range 0.7 1.0 g2 ltac:(discriminate)). lra.
      * pose proof (np_uniform_range 0.7 1.0 g3 ltac:(discriminate)). lra.
    + discriminate.
  - split; [|split].
    + now apply np_hour_range.
    + discriminate.
    + intros ->. contradiction.
Qed.

Lemma fraud_transaction_bounds (i : nat) (g g' : Globals) fraud_type t :
  fraud_transaction i g = ((fraud_type, t), g') ->
  (fraud_type = "high_amount" -> float_field t "amount" 10000 100000) /\
  int_field t "transaction_hour" 0 23 /\
  float_field t "location_risk_score" 0 1 /\
  float_field t "device_risk_score" 0 1 /\
  t !! "is_anomaly" = Some (PInt 1).
Proof.
  unfold fraud_transaction. intros E.
  unfold bind at 1 in E. destruct (choice _ _ _ g) as [ft g1].
  unfold bind at 1 in E.
  destruct (fraud_pattern ft g1)
    as [[[[[amount ty] hour] risk] activity] g2] eqn:Ep.
  destruct (fraud_pattern_bounds _ _ _ _ _ _ _ _ Ep) as (Hhour & Hrisk & Hamount).
  assert (exists l d g3,
    (match risk with
     | Some scores => ret scores
     | None => bind (np (beta 1 3)) (fun l => bind (np (beta 1 2)) (fun d => ret (l, d)))
     end) g2 = ((l, d), g3) /\ (0 <= l <= 1)%Q /\ (0 <= d <= 1)%Q)
    as (l & d & g3 & Er & Hl & Hd).
  { destruct risk as [[l d]|].
    - exists l, d, g2. split; [reflexivity|]. now apply Hrisk.
    - unfold bind, ret.
      pose proof (np_beta_range 1 3 g2). destruct (np (beta 1 3) g2) as [l g3].
      pose proof (np_beta_range 1 2 g3). destruct (np (beta 1 2) g3) as [d g4].
      now exists l, d, g4. }
  unfold bind at 1 in E. rewrite Er in E.
  step_draws_in E.
  split; [|split; [|split; [|split]]].
  - intros Hft. field_holds. apply (round_ndigits_bounds 10000 100000). auto.
  - field_holds. exact Hhour.
  - field_holds. now apply (round_ndigits_bounds 0 1).
  - field_holds. now apply (round_ndigits_bounds 0 1).
  - reflexivity.
Qed.

(** ** The reference population *)

Lemma filter_none {A} (f : A -> bool) (l : list A) :
  (forall a, In a l -> f a = false) -> List.filter f l = [].
Proof.
  induction l as [|a l IH]; cbn; intros Hf; [reflexivity|].
  rewrite (Hf a) by now left. apply IH. intros b Hb. apply Hf. now right.
Qed.

Lemma filter_all {A} (f : A -> bool) (l : list A) :
  (forall a, In a l -> f a = true) -> List.filter f l = l.
Proof.
  induction l as [|a l IH]; cbn; intros Hf; [reflexivity|].
  rewrite (Hf a) by now left. f_equal. apply IH. intros b Hb. apply Hf. now right.
Qed.

Lemma filter_Permutation_length {A} (f : A -> bool) (l l' : list A) :
  Permutation l l' -> length (List.filter f l) = length (List.filter f l').
Proof.
  induction 1 as [|a l l' _ IH|a b l|l l' l'' _ IH1 _ IH2]; cbn.
  - reflexivity.
  - destruct (f a); cbn; congruence.
  - destruct (f a), (f b); reflexivity.
  - congruence.
Qed.

Lemma normal_transactions_labels (n : Z) (g : Globals) (t : gmap string pyval) :
  In t (generate_normal_transactions n g).1 -> is_fraud t = false.
Proof.
  intros Hin. apply for_range_In in Hin. destruct Hin as (i & g' & _ & ->).
  unfold is_fraud.
  destruct (normal_transaction_bounds i g') as (_ & _ & _ & _ & ->). reflexivity.
Qed.

Lemma fraudulent_transactions_eq (n : Z) (g : Globals) :
  (generate_fraudulent_transactions n g).1
  = map snd (for_range fraud_transaction (range n) g).1.
Proof.
  unfold generate_fraudulent_transactions, bind, ret.
  now destruct (for_range fraud_transaction (range n) g).
Qed.

Lemma fraudulent_transactions_labels (n : Z) (g : Globals) (t : gmap string pyval) :
  In t (generate_fraudulent_transactions n g).1 -> is_fraud t = true.
Proof.
  rewrite fraudulent_transactions_eq, in_map_iff.
  intros ([fraud_type t'] & <- & Hin).
  apply for_range_In in Hin. destruct Hin as (i & g' & _ & E).
  destruct (fraud_transaction i g') as [[ft t''] g''] eqn:Ef.
  cbn in E. injection E as -> ->.
  unfold is_fraud. cbn.
  destruct (fraud_transaction_bounds _ _ _ _ _ Ef) as (_ & _ & _ & _ & ->).
  reflexivity.
Qed.

(** The corpus of [generate_dataset] has 10400 records, 400 of them
    labelled as fraud, whatever the draws. *)
Lemma reference_population (g : Globals) :
  let corpus := (all_transactions g).1 in
  Z.of_nat (length corpus) = 10400 /\
  Z.of_nat (length (List.filter is_fraud corpus)) = 400.
Proof.
  cbv zeta. unfold all_transactions, bind.
  pose proof (for_range_length normal_transaction (range 10000) g) as Hn.
  pose proof (normal_transactions_labels 10000 g) as Hln.
  unfold generate_normal_transactions in *.
  destruct (for_range normal_transaction (range 10000) g) as [normal g1].
  pose proof (for_range_length fraud_transaction (range 400) g1) as Hf.
  pose proof (fraudulent_transactions_labels 400 g1) as Hlf.
  rewrite fraudulent_transactions_eq in Hlf.
  unfold generate_fraudulent_transactions, bind, ret.
  destruct (for_range fraud_transaction (range 400) g1) as [drawn g2].
  cbn [fst] in *.
  rewrite np_fst.
  pose proof (shuffle_permutation _ (normal ++ map snd drawn) (np_random g2)) as Hp.
  rewrite (Permutation_length Hp), (filter_Permutation_length _ _ _ Hp).
  rewrite List.filter_app, !length_app, length_map.
  rewrite (filter_none _ _ Hln), (filter_all _ _ Hlf), length_map.
  cbn [length]. rewrite !Nat2Z.inj_add, Hn, Hf.
  rewrite !range_length by lia. lia.
Qed.

Lemma reference_contamination_ratio (g : Globals) :
  (contamination_ratio (all_transactions g).1 == 400 / 10400)%Q.
Proof.
  unfold contamination_ratio.
  destruct (reference_population g) as [-> ->]. reflexivity.
Qed.

(** ** Determinism *)

(** C6.  A run of the generator is the construction with a seed followed by
    [generate_dataset].  Two runs with the same seed produce the same
    sequence of records, in the same order after the shuffle, and the same
    frame, whatever the global generators held before each run; they also
    leave the generators in the same state. *)
Theorem generate_dataset_deterministic (seed : Z) (g1 g2 : Globals) :
  let run g := (__init__ seed g).2 in
  all_transactions (run g1) = all_transactions (run g2) /\
  generate_dataset (run g1) = generate_dataset (run g2).
Proof.
  cbv zeta. unfold __init__. cbn [snd]. split; reflexivity.
Qed.

(** ** Bounds *)

(** C7.  Every generated normal record has its amount in [1, 50000], every
    fraud record drawn as [high_amount] has its amount in [10000, 100000],
    and every record, normal or fraud, has its hour in [0, 23] and both risk
    scores in [0, 1]: the values are those stored in the records, after the
    rounding of the amount to 2 decimals and of the scores to 3. *)
Theorem generated_records_within_bounds (n : Z) (g : Globals) :
  (forall t, In t (generate_normal_transactions n g).1 ->
     float_field t "amount" 1 50000 /\
     int_field t "transaction_hour" 0 23 /\
     float_field t "location_risk_score" 0 1 /\
     float_field t "device_risk_score" 0 1) /\
  (forall fraud_type t,
     In (fraud_type, t) (for_range fraud_transaction (range n) g).1 ->
     (fraud_type = "high_amount" -> float_field t "amount" 10000 100000) /\
     int_field t "transaction_hour" 0 23 /\
     float_field t "location_risk_score" 0 1 /\
     float_field t "device_risk_score" 0 1) /\
  (generate_fraudulent_transactions n g).1
  = map snd (for_range fraud_transaction (range n) g).1.
Proof.
  split; [|split].
  - intros t Hin. apply for_range_In in Hin. destruct Hin as (i & g' & _ & ->).
    destruct (normal_transaction_bounds i g') as (Ha & Hh & Hl & Hd & _). auto.
  - intros fraud_type t Hin.
    apply for_range_In in Hin. destruct Hin as (i & g' & _ & E).
    destruct (fraud_transaction i g') as [[ft t'] g''] eqn:Ef.
    cbn in E. injection E as -> ->.
    destruct (fraud_transaction_bounds _ _ _ _ _ Ef) as (Ha & Hh & Hl & Hd & _).
    auto.
  - apply fraudulent_transactions_eq.
Qed.

End Generated.

Import Reference.

(** With the seed 0 the stand-in generator draws [high_amount] first: the
    first fraud record has its amount within the bounds. *)
Lemma generated_records_within_bounds_witness :
  let g := (__init__ 0 unseeded).2 in
  exists t,
    (for_range fraud_transaction (range 1) g).1 = [("high_amount", t)] /\
    float_field t "amount" 10000 100000.
Proof.
  cbv zeta. eexists. split.
  - vm_compute. reflexivity.
  - destruct (generated_records_within_bounds 1 (__init__ 0 unseeded).2)
      as (_ & Hfraud & _).
    apply (Hfraud "high_amount"); [|reflexivity].
    vm_compute. left. reflexivity.
Defined.

End Corpus.

(* ===================================================================== *)
(** * Training and prediction                                             *)
(* ===================================================================== *)

Module Prediction.
Import Py Pandas Sklearn Model Statements Rounding.

Section Fitted.
Context `{FloatRuntime} `{ForestRuntime}.

(** Runs a method to its end in a hypothesis, one call after the other. *)
Ltac run_in E :=
  unfold bind, get, lift, raise, ret, set_label_encoder, set_scaler, set_model,
    set_feature_columns, set_is_trained, rbind in E;
  repeat match type of E with
    | context [match ?x with _ => _ end] =>
        match x with
        | context [match _ with _ => _ end] => fail 1
        | _ => destruct x eqn:?; try discriminate E
        end
    end.

(** ** The frame of features *)

Lemma select_columns (df : DataFrame) (cols : list string) (X : Selection) :
  select df cols = Ok X -> columns X = cols.
Proof.
  unfold select, columns. revert X.
  induction cols as [|c cols IH]; cbn; intros X E.
  - now injection E as <-.
  - unfold rbind in E. destruct (getitem df c); [|discriminate].
    destruct (rmap _ cols) as [X'|]; [|discriminate].
    injection E as <-. cbn. f_equal. now apply IH.
Qed.

Lemma fillna_columns (X : Selection) s : columns (fillna X s) = columns X.
Proof.
  unfold columns, fillna. rewrite map_map. apply map_ext. now intros [c col].
Qed.

Lemma preprocess_features_columns df self X cols self' :
  preprocess_features df self = (Ok (X, cols), self') ->
  cols = model_features /\ columns X = model_features.
Proof.
  unfold preprocess_features. intros E. run_in E.
  all: injection E as <- <- <-; split; [reflexivity|];
    rewrite fillna_columns; eauto using select_columns.
Qed.
Lemma rmap_length {A B} (f : A -> result B) (l : list A) (l' : list B) :
  rmap f l = Ok l' -> length l' = length l.
Proof.
  revert l'. induction l as [|a l IH]; cbn; intros l' E.
  - now injection E as <-.
  - unfold rbind in E. destruct (f a); [|discriminate].
    destruct (rmap f l) as [bs|]; [|discriminate].
    injection E as <-. cbn. f_equal. now apply IH.
Qed.

Lemma select_In (df : DataFrame) (cols : list string) (X : Selection) :
  select df cols = Ok X ->
  (forall c col, In (c, col) X -> df !! c = Some col) /\
  (forall c, In c cols -> exists col, df !! c = Some col /\ In (c, col) X).
Proof.
  unfold select. revert X.
  induction cols as [|c cols IH]; cbn; intros X E.
  - injection E as <-. split; [intros ? ? []|intros ? []].
  - unfold rbind, getitem in E. destruct (df !! c) as [col|] eqn:Ec; [|discriminate].
    cbn in E. destruct (rmap _ cols) as [X'|]; [|discriminate].
    injection E as <-. destruct (IH X' eq_refl) as [IH1 IH2]. split.
    + intros c' col' [[= <- <-]|Hin]; [exact Ec | now apply IH1].
    + intros c' [<-|Hin].
      * exists col. split; [exact Ec | now left].
      * destruct (IH2 c' Hin) as (col' & ? & ?). exists col'. split; [easy | now right].
Qed.

Lemma fillna_skip (X : Selection) c m means :
  ~ In c (columns X) -> fillna X ((c, m) :: means) = fillna X means.
Proof.
  unfold fillna, columns. intros Hc. apply map_ext_in.
  intros [c' col] Hin. cbn.
  destruct (String.eqb_spec c' c) as [->|Hne]; [|reflexivity].
  exfalso. apply Hc. change c with (fst (c, col)). now apply in_map.
Qed.

(** On a frame of one row, filling with the means of the frame changes
    nothing: the mean of a missing cell is itself missing. *)
Lemma fillna_mean_one_row (X : Selection) (means : list (string * float)) :
  List.NoDup (columns X) ->
  (forall c col, In (c, col) X -> length col = 1%nat) ->
  mean X = Ok means ->
  fillna X means = X.
Proof.
  revert means.
  induction X as [|[c col] X IH]; intros means Hnd Hone E; [reflexivity|].
  unfold mean in E. cbn [rmap] in E. fold (mean X) in E.
  unfold rbind in E. destruct (rmap to_float col) as [xs|] eqn:Exs; [|discriminate].
  destruct (mean X) as [means'|] eqn:Em; [|discriminate].
  injection E as <-.
  inversion Hnd as [|? ? Hc Hnd']; subst.
  change (fillna ((c, col) :: X) ((c, nanmean xs) :: means'))
    with ((c, map (fill_cell (series_get ((c, nanmean xs) :: means') c)) col)
          :: fillna X ((c, nanmean xs) :: means')).
  rewrite fillna_skip by exact Hc.
  rewrite (IH means' Hnd'); [|intros ? ? ?; eapply Hone; right; eassumption|reflexivity].
  f_equal. f_equal. cbn [series_get]. rewrite String.eqb_refl.
  pose proof (Hone c col (or_introl eq_refl)) as Hlen.
  destruct col as [|v [|? ?]]; try discriminate. cbn in Exs |- *.
  unfold rbind in Exs. destruct v; cbn in Exs; try discriminate;
    injection Exs as <-; reflexivity.
Qed.

Lemma model_features_NoDup : List.NoDup model_features.
Proof.
  unfold model_features.
  repeat (constructor; [cbn; intuition discriminate|]). constructor.
Qed.

Lemma preprocess_features_one_record td self X cols self' :
  preprocess_features (of_dict td) self = (Ok (X, cols), self') ->
  forall c v,
    In c model_features -> c <> "transaction_type_encoded" ->
    td !! c = Some v -> In (c, [v]) X.
Proof.
  intros E c v Hc Hne Hv.
  assert (exists codes X0 means,
    length codes = 1%nat /\
    select (setitem (of_dict td) "transaction_type_encoded" codes) model_features = Ok X0 /\
    mean X0 = Ok means /\ X = fillna X0 means) as (codes & X0 & means & Hcodes & Hsel & Hmean & ->).
  { unfold preprocess_features, LabelEncoder_fit_transform, LabelEncoder_transform, getitem, of_dict in E.
    rewrite !lookup_fmap in E.
    run_in E; injection E as <- <- <-.
    all: repeat match goal with
           | E : Ok _ = Ok _ |- _ => injection E as E; subst
           | E : (_, _) = (_, _) |- _ => injection E as E; subst
           | E : _ <$> _ = Some _ |- _ => apply fmap_Some in E; destruct E as (? & ? & ->)
           end.
    all: do 3 eexists; split; [|split; [eassumption|split; [eassumption|reflexivity]]].
    all: repeat match goal with
           | E : rmap _ _ = Ok _ |- _ => apply rmap_length in E
           end; cbn in *; congruence. }
  destruct (select_In _ _ _ Hsel) as [Hin1 Hin2].
  rewrite fillna_mean_one_row; [| |  |exact Hmean].
  - destruct (Hin2 c Hc) as (col & Hcol & Hin).
    unfold setitem, of_dict in Hcol.
    rewrite lookup_insert_ne, lookup_fmap, Hv in Hcol by congruence.
    now injection Hcol as <-.
  - rewrite (select_columns _ _ _ Hsel). apply model_features_NoDup.
  - intros c' col' Hin. apply Hin1 in Hin. unfold setitem, of_dict in Hin.
    destruct (decide (c' = "transaction_type_encoded")) as [->|Hne'].
    + rewrite lookup_insert_eq in Hin. now injection Hin as <-.
    + rewrite lookup_insert_ne, lookup_fmap in Hin by congruence.
      apply fmap_Some in Hin. destruct Hin as (? & ? & ->). reflexivity.
Qed.
(** ** The label encoder *)

Lemma index_of_None (s : string) (l : list string) :
  index_of s l = None <-> ~ In s l.
Proof.
  induction l as [|x l IH]; cbn; [tauto|].
  destruct (String.eqb_spec s x) as [->|Hne].
  - split; [discriminate | intros Hn; exfalso; apply Hn; now left].
  - destruct (index_of s l) as [i|]; cbn.
    + split; [discriminate|]. intros Hn. exfalso.
      assert (~ In s l) as Hl by (intros Hin; apply Hn; now right).
      apply IH in Hl. discriminate.
    + split; [|reflexivity].
      intros _ [E|Hin]; [congruence|]. now apply IH.
Qed.

Lemma In_insert_sorted (s x : string) (l : list string) :
  In x (insert_sorted s l) <-> x = s \/ In x l.
Proof.
  induction l as [|y l IH]; cbn; [intuition congruence|].
  destruct (String.eqb_spec s y) as [->|Hne]; cbn; [intuition congruence|].
  destruct (String.ltb s y); cbn; [intuition congruence|].
  rewrite IH. intuition congruence.
Qed.

Lemma In_unique (x : string) (labels : list string) :
  In x (unique labels) <-> In x labels.
Proof.
  unfold unique. induction labels as [|s labels IH]; cbn; [tauto|].
  rewrite In_insert_sorted, IH. intuition congruence.
Qed.

Lemma as_label_In (y : list pyval) (labels : list string) :
  rmap as_label y = Ok labels ->
  forall s, In s labels <-> In (PStr s) y.
Proof.
  revert labels. induction y as [|v y IH]; cbn; intros labels E s.
  - injection E as <-. tauto.
  - unfold rbind in E. destruct (as_label v) as [l|] eqn:Ev; [|discriminate].
    destruct (rmap as_label y) as [ls|]; [|discriminate].
    injection E as <-. cbn. rewrite (IH ls eq_refl).
    destruct v; try discriminate. injection Ev as <-. intuition congruence.
Qed.

(** ** What a successful [train] leaves in [self] *)

Lemma train_state df self0 m self :
  train df self0 = (Ok m, self) ->
  is_trained self = true /\
  model self = Some m /\
  contamination (params m) = 0.04%Q /\
  (label_encoder self0 = None ->
   exists y labels,
     df !! "transaction_type" = Some y /\
     rmap as_label y = Ok labels /\
     label_encoder self = Some {| classes_ := Some (unique labels) |}).
Proof.
  unfold train, preprocess_features, IsolationForest_fit, IsolationForest_new,
    LabelEncoder_fit_transform, getitem.
  intros E. run_in E.
  all: injection E as <- <-; cbn.
  all: repeat split; try congruence.
  all: intros _.
  all: repeat match goal with
         | E : Ok _ = Ok _ |- _ => injection E as E; subst
         | E : (_, _) = (_, _) |- _ => injection E as E; subst
         end.
  all: eauto.
Qed.

Lemma predict_unseen_label td self classes s :
  is_trained self = true ->
  label_encoder self = Some {| classes_ := Some classes |} ->
  ~ In s classes ->
  td !! "transaction_type" = Some (PStr s) ->
  predict (TDict td) self
  = (Raise (ValueError "y contains previously unseen labels"), self).
Proof.
  intros Ht Henc Hs Htd.
  unfold predict, bind, get. rewrite Ht. cbn [negb].
  unfold preprocess_features, bind, get. rewrite Henc.
  unfold lift, getitem, as_frame, of_dict. rewrite lookup_fmap, Htd. cbn.
  unfold encode. apply index_of_None in Hs. now rewrite Hs.
Qed.

Lemma predict_run td self X cols self1 sc Xs m df rest e :
  is_trained self = true ->
  preprocess_features (as_frame td) self = (Ok (X, cols), self1) ->
  scaler self1 = Some sc ->
  StandardScaler_transform sc X = Ok Xs ->
  model self1 = Some m ->
  IsolationForest_decision_function m Xs = Ok (df :: rest) ->
  _generate_explanation td df (if Qltb df 0 then "FRAUD" else "SAFE") = Ok e ->
  predict td self
  = (Ok {| prediction := if Qltb df 0 then "FRAUD" else "SAFE";
           anomaly_score := df;
           risk_level := if Qltb df (-0.1) then "HIGH"
                         else if Qltb df 0 then "MEDIUM" else "LOW";
           explanation := e |}, self1).
Proof.
  intros Ht Hp Hsc Hx Hm Hd He.
  unfold predict, bind at 1, get. rewrite Ht. cbn [negb].
  unfold bind at 1. rewrite Hp.
  unfold bind at 1, get. rewrite Hsc.
  unfold bind at 1, lift. rewrite Hx.
  unfold bind at 1. rewrite Hm.
  unfold IsolationForest_predict. rewrite Hd. cbn [rbind map].
  unfold bind, lift, first, ret.
  destruct (Qltb df 0); simpl (Z.eqb _ _); cbv iota; rewrite He; reflexivity.
Qed.

(** ** What [preprocess_features] reads of a frame *)

Lemma ensure_columns_ext (df df' : DataFrame) (cols : list string) :
  (forall c, In c cols -> df !! c = df' !! c) ->
  ensure_columns df cols = ensure_columns df' cols.
Proof.
  induction cols as [|c cols IH]; intros Hagree; [reflexivity|].
  cbn. unfold has_column. rewrite (Hagree c) by now left.
  rewrite IH; [reflexivity|]. intros c' Hc'. apply Hagree. now right.
Qed.

Lemma select_ext (df df' : DataFrame) (cols : list string) :
  (forall c, In c cols -> df !! c = df' !! c) ->
  select df cols = select df' cols.
Proof.
  unfold select. induction cols as [|c cols IH]; intros Hagree; [reflexivity|].
  cbn. unfold getitem at 1 3. rewrite (Hagree c) by now left.
  rewrite IH; [reflexivity|]. intros c' Hc'. apply Hagree. now right.
Qed.

Lemma setitem_agree (df df' : DataFrame) codes (c : string) :
  In c model_features ->
  (forall k, In k input_columns -> df !! k = df' !! k) ->
  setitem df "transaction_type_encoded" codes !! c
  = setitem df' "transaction_type_encoded" codes !! c.
Proof.
  intros Hc Hagree. unfold setitem.
  destruct (decide (c = "transaction_type_encoded")) as [->|Hne].
  - now rewrite !lookup_insert_eq.
  - rewrite !lookup_insert_ne by congruence. apply Hagree.
    cbn in Hc |- *. intuition congruence.
Qed.

(** After the encoding, [preprocess_features] only depends on the columns
    it selects. *)
Lemma preprocess_tail_ext (df df' : DataFrame) codes :
  (forall k, In k input_columns -> df !! k = df' !! k) ->
  ensure_columns (setitem df "transaction_type_encoded" codes) model_features
  = ensure_columns (setitem df' "transaction_type_encoded" codes) model_features /\
  select (setitem df "transaction_type_encoded" codes) model_features
  = select (setitem df' "transaction_type_encoded" codes) model_features.
Proof.
  intros Hagree.
  split; [apply ensure_columns_ext | apply select_ext];
    intros c Hc; now apply setitem_agree.
Qed.

(** Two frames with the same input columns are preprocessed alike. *)
Lemma preprocess_features_ext (df df' : DataFrame) self :
  (forall k, In k input_columns -> df !! k = df' !! k) ->
  preprocess_features df self = preprocess_features df' self.
Proof.
  intros Hagree.
  assert (getitem df "transaction_type" = getitem df' "transaction_type") as Hty.
  { unfold getitem. rewrite (Hagree "transaction_type") by (now left). reflexivity. }
  unfold preprocess_features, bind, get, lift, ret, set_label_encoder.
  cbv beta. rewrite <- Hty.
  destruct (label_encoder self) as [enc|];
    (destruct (getitem df "transaction_type") as [y|e]; [|reflexivity]).
  - destruct (LabelEncoder_transform enc y) as [codes|e]; [|reflexivity].
    destruct (preprocess_tail_ext df df' codes Hagree) as [-> ->]. reflexivity.
  - destruct (LabelEncoder_fit_transform y) as [[fitted codes]|e]; [|reflexivity].
    destruct (preprocess_tail_ext df df' codes Hagree) as [-> ->]. reflexivity.
Qed.

(** ** The content of the frame of features *)

(** The seven columns selected: six of the frame, and the codes. *)
Lemma select_features (df : DataFrame) codes (X : Selection) :
  select (setitem df "transaction_type_encoded" codes) model_features = Ok X ->
  exists amount age location device hour past,
    df !! "amount" = Some amount /\
    df !! "account_age_days" = Some age /\
    df !! "location_risk_score" = Some location /\
    df !! "device_risk_score" = Some device /\
    df !! "transaction_hour" = Some hour /\
    df !! "past_transactions_24h" = Some past /\
    X = [("amount", amount); ("transaction_type_encoded", codes);
         ("account_age_days", age); ("location_risk_score", location);
         ("device_risk_score", device); ("transaction_hour", hour);
         ("past_transactions_24h", past)].
Proof.
  unfold select, model_features, setitem, getitem. cbn [rmap].
  rewrite lookup_insert_eq, !lookup_insert_ne by discriminate.
  intros E. unfold rbind in E.
  destruct (df !! "amount") as [amount|]; [|discriminate].
  destruct (df !! "account_age_days") as [age|]; [|discriminate].
  destruct (df !! "location_risk_score") as [location|]; [|discriminate].
  destruct (df !! "device_risk_score") as [device|]; [|discriminate].
  destruct (df !! "transaction_hour") as [hour|]; [|discriminate].
  destruct (df !! "past_transactions_24h") as [past|]; [|discriminate].
  injection E as <-.
  exists amount, age, location, device, hour, past. repeat split; reflexivity.
Qed.

(** Filling with the means of the frame fills each column with its own. *)
Lemma fillna_own_mean (X : Selection) (means : list (string * float)) :
  List.NoDup (columns X) ->
  mean X = Ok means ->
  fillna X means = map (fun '(c, col) => (c, filled col)) X.
Proof.
  revert means.
  induction X as [|[c col] X IH]; intros means Hnd E; [reflexivity|].
  unfold mean in E. cbn [rmap] in E. fold (mean X) in E.
  unfold rbind in E. destruct (rmap to_float col) as [xs|] eqn:Exs; [|discriminate].
  destruct (mean X) as [means'|] eqn:Em; [|discriminate].
  injection E as <-.
  inversion Hnd as [|? ? Hc Hnd']; subst.
  change (fillna ((c, col) :: X) ((c, nanmean xs) :: means'))
    with ((c, map (fill_cell (series_get ((c, nanmean xs) :: means') c)) col)
          :: fillna X ((c, nanmean xs) :: means')).
  rewrite fillna_skip by exact Hc.
  rewrite (IH means' Hnd' eq_refl).
  cbn [map]. f_equal. f_equal. cbn [series_get]. rewrite String.eqb_refl.
  unfold filled. now rewrite Exs.
Qed.

(** The codes of the encoder are integers: none is missing. *)
Lemma fill_cell_codes classes (labels : list string) (codes : list pyval) m :
  rmap (encode classes) labels = Ok codes -> map (fill_cell m) codes = codes.
Proof.
  revert codes. induction labels as [|s labels IH]; cbn; intros codes E.
  - now injection E as <-.
  - unfold rbind in E.
    destruct (encode classes s) as [v|] eqn:Ev; [|discriminate].
    destruct (rmap (encode classes) labels) as [cs|]; [|discriminate].
    injection E as <-. cbn. rewrite (IH cs eq_refl). f_equal.
    unfold encode in Ev. destruct (index_of s classes); [|discriminate].
    injection Ev as <-. reflexivity.
Qed.

Lemma filled_codes enc (y codes : list pyval) :
  LabelEncoder_transform enc y = Ok codes -> filled codes = codes.
Proof.
  unfold LabelEncoder_transform, rbind. intros E.
  destruct (classes_ enc) as [classes|]; [|discriminate].
  destruct (rmap as_label y) as [labels|]; [|discriminate].
  unfold filled. destruct (rmap to_float codes); [|reflexivity].
  eapply fill_cell_codes, E.
Qed.

(** The steps of a successful [preprocess_features]. *)
Lemma preprocess_features_steps df self X cols self' :
  preprocess_features df self = (Ok (X, cols), self') ->
  exists kinds encoder codes X0 means,
    df !! "transaction_type" = Some kinds /\
    label_encoder self' = Some encoder /\
    LabelEncoder_transform encoder kinds = Ok codes /\
    select (setitem df "transaction_type_encoded" codes) model_features = Ok X0 /\
    mean X0 = Ok means /\
    X = fillna X0 means.
Proof.
  unfold preprocess_features, LabelEncoder_fit_transform, getitem.
  intros E. run_in E; injection E as <- <- <-.
  all: repeat match goal with
         | E : Ok _ = Ok _ |- _ => injection E as E; subst
         | E : (_, _) = (_, _) |- _ => injection E as E; subst
         end.
  - do 5 eexists. repeat split; try eassumption; reflexivity.
  - do 5 eexists. repeat split; try eassumption; try reflexivity.
    unfold LabelEncoder_transform, rbind. cbn [classes_].
    match goal with E : rmap as_label _ = _ |- _ => rewrite E end.
    eassumption.
Qed.

(** ** The claims *)

(** C8.  Whatever the frame and the state, at fit time as at inference
    time, the frame of features [preprocess_features] returns has exactly
    the seven feature columns, in their order, so does the array made of
    it, and the ground-truth label [is_anomaly] is none of them.  Each
    column holds the values of the field it is named after: the column of
    the frame given, its missing cells filled with the mean of the others,
    and for [transaction_type_encoded] the codes the encoder left in the
    state gives to the column [transaction_type].  The label has no
    influence on the result: the frame of features, the list of columns and
    the state are the same whatever the column [is_anomaly] holds, and
    without it; they depend on the seven input columns only. *)
Theorem feature_vector_excludes_label df self X cols self' :
  preprocess_features df self = (Ok (X, cols), self') ->
  columns X = ["amount"; "transaction_type_encoded"; "account_age_days";
               "location_risk_score"; "device_risk_score";
               "transaction_hour"; "past_transactions_24h"] /\
  cols = columns X /\
  ~ In "is_anomaly" (columns X) /\
  (forall a, to_numpy X = Ok a -> length a = 7%nat) /\
  (exists kinds encoder codes amount age location device hour past,
     df !! "transaction_type" = Some kinds /\
     label_encoder self' = Some encoder /\
     LabelEncoder_transform encoder kinds = Ok codes /\
     df !! "amount" = Some amount /\
     df !! "account_age_days" = Some age /\
     df !! "location_risk_score" = Some location /\
     df !! "device_risk_score" = Some device /\
     df !! "transaction_hour" = Some hour /\
     df !! "past_transactions_24h" = Some past /\
     X = [("amount", filled amount);
          ("transaction_type_encoded", codes);
          ("account_age_days", filled age);
          ("location_risk_score", filled location);
          ("device_risk_score", filled device);
          ("transaction_hour", filled hour);
          ("past_transactions_24h", filled past)]) /\
  (forall label,
     preprocess_features (setitem df "is_anomaly" label) self = (Ok (X, cols), self')) /\
  preprocess_features (delete "is_anomaly" df) self = (Ok (X, cols), self') /\
  (forall df' : DataFrame,
     (forall k, In k input_columns -> df' !! k = df !! k) ->
     preprocess_features df' self = (Ok (X, cols), self')).
Proof.
  intros E.
  assert (forall df' : DataFrame,
            (forall k, In k input_columns -> df' !! k = df !! k) ->
            preprocess_features df' self = (Ok (X, cols), self')) as Hext.
  { intros df' Hagree. rewrite <- E. now apply preprocess_features_ext. }
  destruct (preprocess_features_columns _ _ _ _ _ E) as [Hcols HX].
  split; [exact HX|]. split; [now rewrite HX|]. split; [|split; [|split; [|split; [|split]]]].
  - rewrite HX. cbn. intuition discriminate.
  - intros a Ha. apply rmap_length in Ha. rewrite Ha.
    rewrite <- (length_map fst X).
    fold (columns X). now rewrite HX.
  - destruct (preprocess_features_steps _ _ _ _ _ E)
      as (kinds & encoder & codes & X0 & means & Hk & He & Hc & Hsel & Hmean & ->).
    rewrite fillna_own_mean; [| |exact Hmean].
    2:{ rewrite (select_columns _ _ _ Hsel). apply model_features_NoDup. }
    destruct (select_features _ _ _ Hsel)
      as (amount & age & location & device & hour & past
          & Ha & Hg & Hl & Hd & Hh & Hp & ->).
    exists kinds, encoder, codes, amount, age, location, device, hour, past.
    repeat (split; [assumption|]).
    cbn [map]. now rewrite (filled_codes _ _ _ Hc).
  - intros label. apply Hext. intros k Hk. unfold setitem.
    apply lookup_insert_ne. cbn in Hk. intuition (subst; discriminate).
  - apply Hext. intros k Hk.
    apply lookup_delete_ne. cbn in Hk. intuition (subst; discriminate).
  - exact Hext.
Qed.

(** C9.  Before training has completed ([is_trained] is still false),
    [predict] raises the error of an untrained model for every argument,
    returns no result and leaves the state as it was. *)
Theorem predict_before_fit td self :
  is_trained self = false ->
  predict td self
  = (Raise (ValueError "Model must be trained before making predictions"), self).
Proof.
  intros Ht. unfold predict, bind, get. now rewrite Ht.
Qed.

(** C3.  After training a fresh model on a frame, a record whose
    [transaction_type] occurs nowhere in the frame makes [predict] raise the
    error of an unseen label; the state is left as it was, so every later
    [predict] returns what it would have returned without the failing
    call. *)
Theorem unknown_category_rejected df self0 m self td s :
  label_encoder self0 = None ->
  train df self0 = (Ok m, self) ->
  td !! "transaction_type" = Some (PStr s) ->
  (forall y, df !! "transaction_type" = Some y -> ~ In (PStr s) y) ->
  predict (TDict td) self
  = (Raise (ValueError "y contains previously unseen labels"), self) /\
  (forall td', predict td' (predict (TDict td) self).2 = predict td' self).
Proof.
  intros Hfresh Htrain Htd Hunseen.
  destruct (train_state _ _ _ _ Htrain) as (Ht & _ & _ & Henc).
  destruct (Henc Hfresh) as (y & labels & Hy & Hlabels & Hle).
  assert (predict (TDict td) self
          = (Raise (ValueError "y contains previously unseen labels"), self)) as E.
  { apply (predict_unseen_label td self (unique labels) s Ht Hle); [|exact Htd].
    rewrite In_unique, (as_label_In _ _ Hlabels). now apply Hunseen. }
  split; [exact E|]. intros td'. now rewrite E.
Qed.

(** C4.  Whenever the pipeline delivers a decision-function value [df] for
    the request, [predict] returns a result whose label is FRAUD if
    [df < 0] and SAFE otherwise, and whose risk level is HIGH if
    [df < -0.1], MEDIUM if [-0.1 <= df < 0] and LOW if [0 <= df]; the
    breakpoints are the same for every fitted state. *)
Theorem predict_classifies td self X cols self1 sc Xs m df rest e :
  is_trained self = true ->
  preprocess_features (as_frame td) self = (Ok (X, cols), self1) ->
  scaler self1 = Some sc ->
  StandardScaler_transform sc X = Ok Xs ->
  model self1 = Some m ->
  IsolationForest_decision_function m Xs = Ok (df :: rest) ->
  _generate_explanation td df (if Qltb df 0 then "FRAUD" else "SAFE") = Ok e ->
  exists r,
    predict td self = (Ok r, self1) /\
    anomaly_score r = df /\
    explanation r = e /\
    ((df < 0)%Q -> prediction r = "FRAUD") /\
    ((0 <= df)%Q -> prediction r = "SAFE") /\
    ((df < -0.1)%Q -> risk_level r = "HIGH") /\
    ((-0.1 <= df)%Q /\ (df < 0)%Q -> risk_level r = "MEDIUM") /\
    ((0 <= df)%Q -> risk_level r = "LOW").
Proof.
  intros Ht Hp Hsc Hx Hm Hd He.
  eexists. split; [eapply predict_run; eassumption|]. cbn.
  split; [reflexivity|]. split; [reflexivity|].
  repeat split.
  - intros Hlt. apply Qltb_lt in Hlt. now rewrite Hlt.
  - intros Hge. apply Qltb_ge in Hge. now rewrite Hge.
  - intros Hlt. apply Qltb_lt in Hlt. now rewrite Hlt.
  - intros [Hge Hlt]. apply Qltb_ge in Hge. apply Qltb_lt in Hlt.
    now rewrite Hge, Hlt.
  - intros Hge.
    assert (-0.1 <= df)%Q as Hge' by (eapply Qle_trans; [|exact Hge]; discriminate).
    apply Qltb_ge in Hge, Hge'. now rewrite Hge', Hge.
Qed.

End Fitted.

Section Contamination.
Context `{FloatRuntime} `{ForestRuntime} `{Generator.NumpyRandom}.

(** C2.  The expected-anomaly fraction handed to the forest at fit time is
    the constant 0.04, whatever the frame trained on.  The corpus of
    [generate_dataset] has the contamination ratio 400/10400 whatever the
    draws; the constant is not that ratio, it exceeds it by 1/650. *)
Theorem contamination_is_a_fixed_constant df self0 m self (g : Generator.Globals) :
  train df self0 = (Ok m, self) ->
  model self = Some m /\
  contamination (params m) = 0.04%Q /\
  (contamination_ratio (Generator.all_transactions g).1 == 400 / 10400)%Q /\
  (contamination (params m)
   - contamination_ratio (Generator.all_transactions g).1 == 1 / 650)%Q.
Proof.
  intros E. destruct (train_state _ _ _ _ E) as (_ & Hm & Hc & _).
  split; [exact Hm|]. split; [exact Hc|].
  pose proof (Corpus.reference_contamination_ratio g) as Hr.
  split; [exact Hr|]. rewrite Hc, Hr. reflexivity.
Qed.

End Contamination.

Import Reference.

Lemma small_corpus_trains : train small_corpus __init__ = (Ok small_forest, fitted).
Proof. vm_compute. reflexivity. Qed.

(** C2: trained on the small corpus, the forest was given 0.04, which is
    neither 400/10400 nor the ratio 1/3 of the corpus it was trained on. *)
Lemma contamination_is_not_the_corpus_ratio :
  exists m self,
    train small_corpus __init__ = (Ok m, self) /\
    ~ (contamination (params m) == 400 / 10400)%Q /\
    ~ (contamination (params m) == 1 / 3)%Q.
Proof.
  exists small_forest, fitted. split; [exact small_corpus_trains|].
  split; discriminate.
Qed.

Lemma contamination_is_a_fixed_constant_witness :
  contamination (params small_forest) = 0.04%Q.
Proof.
  apply (contamination_is_a_fixed_constant small_corpus __init__ small_forest fitted
           unseeded).
  vm_compute. reflexivity.
Defined.

(** C1.  The model is trained on the small corpus, where the mean of
    [amount] is 30010.  For the request whose amount is missing, the frame
    of features still has the amount missing, and so has the array handed
    on after scaling; in a frame of two requests the missing amount takes
    the amount of the other request, 100 in one frame and 300 in the other,
    and never the fitted mean. *)
Example missing_amount_is_not_filled_with_the_fitted_mean :
  train small_corpus __init__ = (Ok small_forest, fitted) /\
  (exists sc st x,
     scaler fitted = Some sc /\ scaler_stats_ sc = Some st /\
     nth 0 (mean_ st) None = Some x /\ (x == 30010)%Q) /\
  feature "amount" (preprocess_features (of_dict request_without_amount) fitted).1
  = Some [PNaN] /\
  (exists sc X cols rest,
     scaler fitted = Some sc /\
     (preprocess_features (of_dict request_without_amount) fitted).1 = Ok (X, cols) /\
     StandardScaler_transform sc X = Ok ([None] :: rest)) /\
  feature "amount" (preprocess_features (batch 100) fitted).1
  = Some [PFloat 100; PFloat 100] /\
  feature "amount" (preprocess_features (batch 300) fitted).1
  = Some [PFloat 300; PFloat 300].
Proof.
  split; [exact small_corpus_trains|].
  split; [do 3 eexists; repeat split; [vm_compute; reflexivity ..]|].
  split; [vm_compute; reflexivity|].
  split; [do 4 eexists; repeat split; vm_compute; reflexivity|].
  split; vm_compute; reflexivity.
Qed.
(** The small corpus has the column [is_anomaly]; the frame of features
    made of it has not, holds the six numeric columns of the corpus and the
    codes of its categories, and is the same once the label is dropped. *)
Lemma feature_vector_excludes_label_witness :
  has_column small_corpus "is_anomaly" = true /\
  exists X cols,
    (preprocess_features small_corpus __init__).1 = Ok (X, cols) /\
    ~ In "is_anomaly" (columns X) /\
    X = [("amount", [PFloat 10; PFloat 20; PFloat 90000]);
         ("transaction_type_encoded", [PInt 0; PInt 1; PInt 1]);
         ("account_age_days", [PInt 400; PInt 300; PInt 10]);
         ("location_risk_score", [PFloat 0.1; PFloat 0.2; PFloat 0.9]);
         ("device_risk_score", [PFloat 0.2; PFloat 0.3; PFloat 0.85]);
         ("transaction_hour", [PInt 12; PInt 14; PInt 3]);
         ("past_transactions_24h", [PInt 5; PInt 4; PInt 30])] /\
    (preprocess_features (delete "is_anomaly" small_corpus) __init__).1 = Ok (X, cols).
Proof.
  split; [reflexivity|].
  edestruct (feature_vector_excludes_label small_corpus __init__)
    as (_ & _ & Hlabel & _ & _ & _ & Hdelete & _).
  - vm_compute. reflexivity.
  - eexists _, _. split; [vm_compute; reflexivity|].
    split; [exact Hlabel|]. split; [reflexivity|].
    rewrite Hdelete. reflexivity.
Defined.

Lemma predict_before_fit_witness :
  predict (TDict ordinary_request) __init__
  = (Raise (ValueError "Model must be trained before making predictions"), __init__).
Proof.
  apply (predict_before_fit (TDict ordinary_request) __init__). reflexivity.
Defined.

(** The small corpus has purchases and transfers only: a payment is
    rejected, and the ordinary request is then answered as before. *)
Lemma unknown_category_rejected_witness :
  predict (TDict payment_request) fitted
  = (Raise (ValueError "y contains previously unseen labels"), fitted) /\
  predict (TDict ordinary_request) (predict (TDict payment_request) fitted).2
  = predict (TDict ordinary_request) fitted.
Proof.
  destruct (unknown_category_rejected small_corpus __init__ small_forest fitted
              payment_request "payment") as [Hraise Hlater].
  - reflexivity.
  - vm_compute. reflexivity.
  - reflexivity.
  - intros y Hy. vm_compute in Hy. injection Hy as <-.
    cbn. intuition discriminate.
  - split; [exact Hraise | apply Hlater].
Defined.

(** The request that resembles the anomalous record of the corpus is
    labelled FRAUD with a HIGH risk. *)
Lemma predict_classifies_witness :
  exists r,
    predict (TDict anomalous_request) fitted = (Ok r, fitted) /\
    prediction r = "FRAUD" /\ risk_level r = "HIGH".
Proof.
  edestruct (predict_classifies (TDict anomalous_request) fitted)
    as (r & Hr & _ & _ & Hfraud & _ & Hhigh & _).
  - vm_compute. reflexivity.
  - vm_compute. reflexivity.
  - vm_compute. reflexivity.
  - vm_compute. reflexivity.
  - vm_compute. reflexivity.
  - vm_compute. reflexivity.
  - vm_compute. reflexivity.
  - exists r. split; [exact Hr|]. split; [apply Hfraud | apply Hhigh]; reflexivity.
Defined.

End Prediction.

(* ===================================================================== *)
(** * The explanation                                                     *)
(* ===================================================================== *)

Module Explanation.
Import Py Pandas Model Statements Rounding.

Section Findings.
Context `{FloatRuntime}.

(** ** Against the specification *)

Lemma append_if_Ok (b : bool) (s : string) (e : list string) :
  append_if (Ok b) (Ok s) e = Ok (e ++ map snd (List.filter fst [(b, s)])).
Proof. destruct b; cbn; [reflexivity | now rewrite app_nil_r]. Qed.

Lemma unusual_hour_int (h : Z) :
  unusual_hour (Scalar (PInt h)) = Ok (negb (bool_decide (6 <= h <= 22))).
Proof.
  unfold unusual_hour, test, py_lt, py_gt, rbind.
  change 6%Q with (inject_Z 6). change 22%Q with (inject_Z 22).
  rewrite !Qltb_inject_Z.
  repeat case_bool_decide; try reflexivity; lia.
Qed.

(** C5.  For every request, decision-function value and label, the text of
    [_generate_explanation] is the separator-joined list the specification
    describes: the summary line first; for FRAUD the findings on the amount
    above 10000, the location and device risk scores above 0.7, the hour
    outside [6,22], more than 20 transactions in 24 hours and an account
    younger than 30 days, in this order and each only when its condition
    holds; for SAFE the low-risk note exactly when the value is above
    0.1. *)
Theorem explanation_follows_specification
    (t : Api.TransactionRequest) (decision_function_value : Q) (l : Spec.label) :
  _generate_explanation (TDict (Api.dict t)) decision_function_value (Spec.label_name l)
  = Ok (Spec.explain t decision_function_value l).
Proof.
  unfold _generate_explanation, explanations, Spec.explain.
  destruct l; cbn [Spec.label_name String.eqb Ascii.eqb Bool.eqb]; cbv iota.
  - change (td_get (TDict (Api.dict t)) "amount" (PInt 0))
      with (Scalar (PFloat (Api.amount t))).
    change (td_get (TDict (Api.dict t)) "location_risk_score" (PInt 0))
      with (Scalar (PFloat (Api.location_risk_score t))).
    change (td_get (TDict (Api.dict t)) "device_risk_score" (PInt 0))
      with (Scalar (PFloat (Api.device_risk_score t))).
    change (td_get (TDict (Api.dict t)) "transaction_hour" (PInt 0))
      with (Scalar (PInt (Api.transaction_hour t))).
    change (td_get (TDict (Api.dict t)) "past_transactions_24h" (PInt 0))
      with (Scalar (PInt (Api.past_transactions_24h t))).
    change (td_get (TDict (Api.dict t)) "account_age_days" (PInt 0))
      with (Scalar (PInt (Api.account_age_days t))).
    rewrite unusual_hour_int.
    cbn [test py_gt py_lt fmt_float fmt_str format_float py_str rbind].
    change 20%Q with (inject_Z 20). change 30%Q with (inject_Z 30).
    rewrite !Qltb_inject_Z, !Qltb_exceeds.
    repeat (rewrite append_if_Ok; cbn [rbind]).
    unfold Spec.fraud_checks.
    do 3 destruct (Spec.exceeds _ _); destruct (negb _);
      do 2 destruct (bool_decide _); reflexivity.
  - rewrite Qltb_exceeds. now destruct (Spec.exceeds _ _).
Qed.
(** ** On partial records *)

Lemma td_get_zero_fields (td : gmap string pyval) (k : string) :
  In k explained_fields ->
  td_get (TDict (td ∪ zero_fields)) k (PInt 0) = td_get (TDict td) k (PInt 0).
Proof.
  intros Hk. unfold td_get, dict_get. f_equal.
  rewrite lookup_union.
  destruct (td !! k) as [v|].
  - now destruct (zero_fields !! k).
  - cbn in Hk. destruct Hk as [<-|[<-|[<-|[<-|[<-|[<-|[]]]]]]]; reflexivity.
Qed.

Lemma test_numeric cmp (v : pyval) (c : Q) :
  cmp = py_gt \/ cmp = py_lt -> numeric v -> exists b, test cmp (Scalar v) c = Ok b.
Proof.
  intros [-> | ->] Hv; destruct v; cbn in *; eauto; contradiction.
Qed.

Lemma unusual_hour_numeric (v : pyval) :
  numeric v -> exists b, unusual_hour (Scalar v) = Ok b.
Proof.
  intros Hv. unfold unusual_hour.
  destruct v; cbn in *; try contradiction; eauto.
  - destruct (Qltb _ _); eauto.
  - destruct (Qltb _ _); eauto.
Qed.

Lemma float_sized_numeric (v : pyval) : float_sized v -> numeric v.
Proof. destruct v; cbn; auto. Qed.

Lemma fmt_float_float_sized comma digits (v : pyval) :
  float_sized v -> exists s, fmt_float comma digits (Scalar v) = Ok s.
Proof.
  intros Hv. unfold fmt_float, format_float, float_of_int.
  destruct v as [z|x| |s]; cbn [float_sized] in Hv; try contradiction; eauto.
  rewrite Hv. cbn [rbind]. eauto.
Qed.

(** The format [f] of an integer that [float] refuses raises. *)
Lemma fmt_float_overflow comma digits (z : Z) :
  int_overflows z = true ->
  fmt_float comma digits (Scalar (PInt z))
  = Raise (OverflowError "int too large to convert to float").
Proof. intros Hz. unfold fmt_float, format_float, float_of_int. now rewrite Hz. Qed.

(** A step of the function never loses a finding. *)
Lemma append_if_total (cond : result bool) (text : result string) (e : list string) :
  (exists b, cond = Ok b) -> (exists s, text = Ok s) ->
  exists e', append_if cond text e = Ok e' /\
             (forall x, In x e -> In x e') /\
             (forall s, cond = Ok true -> text = Ok s -> In s e').
Proof.
  intros [b ->] [s ->]. unfold append_if. cbn.
  destruct b.
  - exists (e ++ [s]). split; [reflexivity|]. split.
    + intros x Hx. apply in_or_app. now left.
    + intros s' _ [= <-]. apply in_or_app. right. now left.
  - exists e. split; [reflexivity|]. split; [auto|]. discriminate.
Qed.

Lemma dict_get_float_sized (td : gmap string pyval) (k : string) :
  (forall v, td !! k = Some v -> float_sized v) ->
  float_sized (dict_get td k (PInt 0)).
Proof.
  intros Hk. unfold dict_get. destruct (td !! k) as [v|]; [auto|].
  cbn [float_sized]. vm_compute. reflexivity.
Qed.

(** C10.  On a record that lacks any of the fields it reads, and whose
    fields present hold numbers of the size of a float (a float, [nan], or
    an integer below the bound from which its conversion to a float
    overflows), [_generate_explanation] returns a text: it never raises.  A
    field that is absent counts as 0, the text being that of the record
    completed with zeros; so a FRAUD record without its hour is reported at
    an unusual time, hour 0, and one without its account age as a new
    account, 0 days old. *)
Theorem explanation_total_on_partial_records
    (td : gmap string pyval) (anomaly_score : Q) (prediction_label : string) :
  (forall k v, In k explained_fields -> td !! k = Some v -> float_sized v) ->
  (exists text,
     _generate_explanation (TDict td) anomaly_score prediction_label = Ok text) /\
  _generate_explanation (TDict td) anomaly_score prediction_label
  = _generate_explanation (TDict (td ∪ zero_fields)) anomaly_score prediction_label /\
  (prediction_label = "FRAUD" ->
   exists findings,
     explanations (TDict td) anomaly_score prediction_label = Ok findings /\
     (td !! "transaction_hour" = None ->
      In "Unusual transaction time: 0:00" findings) /\
     (td !! "account_age_days" = None ->
      In "New account: 0 days old" findings)).
Proof.
  intros Hnum.
  assert (forall k, In k explained_fields -> float_sized (dict_get td k (PInt 0)))
    as Hsized.
  { intros k Hk. apply dict_get_float_sized. eauto. }
  assert (forall k, In k explained_fields -> numeric (dict_get td k (PInt 0))) as Hget.
  { intros k Hk. now apply float_sized_numeric, Hsized. }
  assert (exists findings,
    explanations (TDict td) anomaly_score prediction_label = Ok findings /\
    (prediction_label = "FRAUD" ->
     (td !! "transaction_hour" = None ->
      In "Unusual transaction time: 0:00" findings) /\
     (td !! "account_age_days" = None ->
      In "New account: 0 days old" findings))) as (findings & Hf & Hex).
  { unfold explanations.
    destruct (String.eqb_spec prediction_label "FRAUD") as [->|Hne].
    2:{ eexists. split; [reflexivity|]. intros E. contradiction. }
    cbn [td_get].
    match goal with
    | |- context [append_if ?c ?t ?e] =>
        destruct (append_if_total c t e) as (e1 & -> & M1 & _)
    end.
    { apply test_numeric; [now left | apply Hget; cbn; tauto]. }
    { destruct (fmt_float_float_sized true 2 (dict_get td "amount" (PInt 0)))
        as [s ->]; [apply Hsized; cbn; tauto | cbn; eauto]. }
    cbn [rbind].
    match goal with
    | |- context [append_if ?c ?t ?e] =>
        destruct (append_if_total c t e) as (e2 & -> & M2 & _)
    end.
    { apply test_numeric; [now left | apply Hget; cbn; tauto]. }
    { destruct (fmt_float_float_sized false 3 (dict_get td "location_risk_score" (PInt 0)))
        as [s ->]; [apply Hsized; cbn; tauto | cbn; eauto]. }
    cbn [rbind].
    match goal with
    | |- context [append_if ?c ?t ?e] =>
        destruct (append_if_total c t e) as (e3 & -> & M3 & _)
    end.
    { apply test_numeric; [now left | apply Hget; cbn; tauto]. }
    { destruct (fmt_float_float_sized false 3 (dict_get td "device_risk_score" (PInt 0)))
        as [s ->]; [apply Hsized; cbn; tauto | cbn; eauto]. }
    cbn [rbind].
    match goal with
    | |- context [append_if ?c ?t ?e] =>
        destruct (append_if_total c t e) as (e4 & -> & M4 & Hhour)
    end.
    { apply unusual_hour_numeric, Hget; cbn; tauto. }
    { cbn; eauto. }
    cbn [rbind].
    match goal with
    | |- context [append_if ?c ?t ?e] =>
        destruct (append_if_total c t e) as (e5 & -> & M5 & _)
    end.
    { apply test_numeric; [now left | apply Hget; cbn; tauto]. }
    { cbn; eauto. }
    cbn [rbind].
    match goal with
    | |- context [append_if ?c ?t ?e] =>
        destruct (append_if_total c t e) as (e6 & -> & M6 & Hage)
    end.
    { apply test_numeric; [now right | apply Hget; cbn; tauto]. }
    { cbn; eauto. }
    cbn [rbind].
    exists e6. split; [reflexivity|]. intros _. split.
    - intros Hnone. apply M6, M5, Hhour; unfold dict_get; rewrite Hnone; reflexivity.
    - intros Hnone. apply Hage; unfold dict_get; rewrite Hnone; reflexivity. }
  split; [|split].
  - unfold _generate_explanation. rewrite Hf. cbn. eauto.
  - unfold _generate_explanation, explanations.
    rewrite !td_get_zero_fields by (cbn; tauto). reflexivity.
  - intros Hl. exists findings. split; [exact Hf|]. now apply Hex.
Qed.
End Findings.

Import Reference.

(** A record that holds an amount, an integer, and nothing else. *)
Lemma explanation_total_on_partial_records_witness :
  _generate_explanation (TDict {["amount" := PInt 20000]}) 0 "FRAUD"
  = Ok "Transaction flagged as potentially fraudulent | High transaction amount: $20,000.00 | Unusual transaction time: 0:00 | New account: 0 days old".
Proof.
  destruct (explanation_total_on_partial_records
              {["amount" := PInt 20000]} 0 "FRAUD") as ([text Htext] & _).
  - intros k v _ Hv. apply lookup_singleton_Some in Hv. destruct Hv as [_ <-].
    vm_compute. reflexivity.
  - rewrite Htext. vm_compute in Htext. congruence.
Defined.

(** An integer is formatted as the float nearest to it. *)
Example integer_amount_is_formatted_as_a_float :
  format_float true 2 (PInt (2 ^ 60 + 1)) = Ok "1,152,921,504,606,846,976.00".
Proof. vm_compute. reflexivity. Qed.

(** Beyond the bound the function raises: an amount of [10 ** 400] is above
    10000, and its format overflows. *)
Example explanation_raises_on_an_oversized_amount :
  float_sized (PInt (10 ^ 400)) = (true = false) /\
  _generate_explanation (TDict {["amount" := PInt (10 ^ 400)]}) 0 "FRAUD"
  = Raise (OverflowError "int too large to convert to float").
Proof. split; vm_compute; reflexivity. Qed.

End Explanation.
